(** * drinks-api: the drink store of [app/main.py]

    A shallow embedding of the pydantic models ([DrinkBase], [DrinkCreate])
    and of the file-backed [DrinkStorage] class, followed by the properties
    of the storage component.

    Python objects that reach the store come from [json.load] or are built
    from validated input, so they are modelled by the type [value] of
    JSON-shaped Python values.  Exceptions are explicit ([result]); methods
    that touch the object and the file system run in the monad [M].

    A [str] is represented by the bytes of its UTF-8 encoding: two
    [string]s are equal exactly when the [str]s are, the empty [string] is
    the empty [str], and an ASCII prefix is a prefix of bytes. *)

From Stdlib Require Import ZArith String Ascii List PrimFloat Floats Lia.
From stdpp Require Import gmap strings list fin_maps.

#[local] Set Warnings "-register-all,-inexact-float".
Local Open Scope Z_scope.
Local Open Scope string_scope.
Local Open Scope list_scope.

(** ** Python values *)

(** What [json.load] can return, and what [json.dump] accepts.  A [dict]
    has [str] keys; two dicts are equal when they map the same keys to the
    same values, as with Python's [==]. *)
Inductive value : Type :=
  | VNone
  | VBool (b : bool)
  | VInt (z : Z)
  | VFloat (f : float)
  | VStr (s : string)
  | VList (l : list value)
  | VDict (m : gmap string value).

(** The exceptions the modelled code can meet, each by its class; a class
    the model has no use for by name is an [OtherException].  All of them
    derive from [Exception], so [except Exception] catches each one. *)
Inductive exn : Type :=
  | AttributeError
  | TypeError
  | KeyError
  | OSError
  | JSONDecodeError
  | UnicodeDecodeError
  | OtherException (class : string).

Inductive result (A : Type) : Type :=
  | Ok (a : A)
  | Raise (e : exn).
Arguments Ok {A} a.
Arguments Raise {A} e.

#[global] Instance result_ret : MRet result := @Ok.
#[global] Instance result_bind : MBind result := fun A B f r =>
  match r with
  | Ok a => f a
  | Raise e => Raise e
  end.

(** ** Letter case *)

(** Two characters are the same letter when they are equal or are the
    upper-case and lower-case forms of one letter of [A]..[Z]. *)
Definition same_letter (c1 c2 : ascii) : Prop :=
  let n1 := N_of_ascii c1 in
  let n2 := N_of_ascii c2 in
  (n1 = n2 \/ (65 <= n1 <= 90 /\ n2 = n1 + 32) \/ (65 <= n2 <= 90 /\ n1 = n2 + 32))%N.

(** Equality of strings up to the case of the letters [A]..[Z]: same
    length, the same letter at every position. *)
Inductive eq_ignore_case : string -> string -> Prop :=
  | eic_empty : eq_ignore_case EmptyString EmptyString
  | eic_char c1 c2 s1 s2 :
      same_letter c1 c2 -> eq_ignore_case s1 s2 ->
      eq_ignore_case (String c1 s1) (String c2 s2).

(** [str.lower()].  The method follows the case tables of the Unicode
    database the interpreter is built with, which are no part of the
    repository: it is a parameter of the model, and every property of the
    code below holds whatever it is.  One fact about it is used: it does not
    tell [A]..[Z] from [a]..[z], so two strs that differ in nothing else
    have the same lower-case form. *)
Class StrLower : Type := {
  str_lower : string -> string;
  str_lower_ascii_case :
    forall s1 s2, eq_ignore_case s1 s2 -> str_lower s1 = str_lower s2
}.

(** ** Built-in operations used by the source *)

Module Py.

(** On a str of ASCII characters [str.lower()] maps [A]..[Z] to [a]..[z]
    and leaves the other characters alone. *)
Definition is_upper (c : ascii) : bool :=
  let n := N_of_ascii c in ((65 <=? n) && (n <=? 90))%N.

Definition lower_char (c : ascii) : ascii :=
  if is_upper c then ascii_of_N (N_of_ascii c + 32) else c.

Fixpoint ascii_lower (s : string) : string :=
  match s with
  | EmptyString => EmptyString
  | String c s' => String (lower_char c) (ascii_lower s')
  end.

(** The instance the examples run with; all their strings are ASCII, and
    nothing is concluded from it about any other string. *)
Definition ascii_text : StrLower.
Proof.
  refine {| str_lower := ascii_lower |}.
  induction 1 as [|c1 c2 s1 s2 Hc _ IH]; [reflexivity|].
  cbn [ascii_lower]. rewrite IH. f_equal.
  assert (E : forall c, N_of_ascii (lower_char c) =
                        if is_upper c then (N_of_ascii c + 32)%N else N_of_ascii c).
  { intros c. unfold lower_char, is_upper. cbv zeta.
    destruct (N.leb_spec 65 (N_of_ascii c)), (N.leb_spec (N_of_ascii c) 90);
      cbn [andb]; try reflexivity.
    apply N_ascii_embedding. lia. }
  rewrite <- (ascii_N_embedding (lower_char c1)), <- (ascii_N_embedding (lower_char c2)).
  f_equal. rewrite !E. unfold same_letter in Hc. unfold is_upper. cbv zeta in *.
  destruct (N.leb_spec 65 (N_of_ascii c1)), (N.leb_spec (N_of_ascii c1) 90),
           (N.leb_spec 65 (N_of_ascii c2)), (N.leb_spec (N_of_ascii c2) 90);
    cbn [andb]; lia.
Defined.

(** The string with the given bytes. *)
Definition bytes (l : list N) : string :=
  fold_right (fun n s => String (ascii_of_N n) s) EmptyString l.

(** The characters [str.isspace()] holds of, each by its UTF-8 encoding:
    U+0009..U+000D, U+001C..U+001F, U+0020, U+0085, U+00A0, U+1680,
    U+2000..U+200A, U+2028, U+2029, U+202F, U+205F and U+3000. *)
Definition whitespace : list string :=
  bytes <$>
    [[9]; [10]; [11]; [12]; [13]; [28]; [29]; [30]; [31]; [32];
     [194; 133]; [194; 160]; [225; 154; 128];
     [226; 128; 128]; [226; 128; 129]; [226; 128; 130]; [226; 128; 131];
     [226; 128; 132]; [226; 128; 133]; [226; 128; 134]; [226; 128; 135];
     [226; 128; 136]; [226; 128; 137]; [226; 128; 138];
     [226; 128; 168]; [226; 128; 169]; [226; 128; 175]; [226; 129; 159];
     [227; 128; 128]]%N.

(** What follows the prefix [p] in [s], when [s] starts with [p]. *)
Fixpoint after_prefix (p s : string) : option string :=
  match p, s with
  | EmptyString, _ => Some s
  | String a p', String b s' => if Ascii.eqb a b then after_prefix p' s' else None
  | String _ _, EmptyString => None
  end.

Fixpoint after_any (ps : list string) (s : string) : option string :=
  match ps with
  | [] => None
  | p :: ps' =>
      match after_prefix p s with
      | Some r => Some r
      | None => after_any ps' s
      end
  end.

(** Up to [n] times, drop one of [ps] from the front of [s]. *)
Fixpoint strip_front (ps : list string) (n : nat) (s : string) : string :=
  match n with
  | O => s
  | S n' =>
      match after_any ps s with
      | Some r => strip_front ps n' r
      | None => s
      end
  end.

Definition reverse (s : string) : string :=
  string_of_list_ascii (rev (list_ascii_of_string s)).

(** [str.lstrip()] and [str.rstrip()]: the whitespace characters at one
    end are dropped, however many; a str has no more of them than bytes. *)
Definition lstrip (s : string) : string :=
  strip_front whitespace (String.length s) s.

Definition rstrip (s : string) : string :=
  reverse (strip_front (reverse <$> whitespace) (String.length s) (reverse s)).

(** [str.strip()] *)
Definition strip (s : string) : string := rstrip (lstrip s).

(** [s.startswith(p)] *)
Definition startswith (s p : string) : bool := String.prefix p s.

(** Truth value of a [str]: [not v] holds for the empty string only. *)
Definition not_str (s : string) : bool :=
  match s with EmptyString => true | _ => false end.

(** [d[k]] *)
Definition subscript (d : value) (k : string) : result value :=
  match d with
  | VDict m =>
      match m !! k with
      | Some v => Ok v
      | None => Raise KeyError
      end
  | _ => Raise TypeError
  end.

(** [d.get(k, default)]: only a [dict] has the method. *)
Definition get (d : value) (k : string) (dflt : value) : result value :=
  match d with
  | VDict m => Ok (default dflt (m !! k))
  | _ => Raise AttributeError
  end.

(** [l.append(x)]: of the values in play only a [list] has the method. *)
Definition append (l x : value) : result value :=
  match l with
  | VList xs => Ok (VList (xs ++ [x])%list)
  | _ => Raise AttributeError
  end.

(** [n += 1]: defined on [int], on [bool] (an [int] in Python) and on
    [float]; a [TypeError] on [None], [str], [list] and [dict]. *)
Definition iadd_one (n : value) : result value :=
  match n with
  | VInt z => Ok (VInt (z + 1))
  | VBool b => Ok (VInt (Z.b2z b + 1))
  | VFloat f => Ok (VFloat (f + 1)%float)
  | _ => Raise TypeError
  end.

(** [v.lower()]: only a [str] has the method. *)
Definition lower_method {L : StrLower} (v : value) : result string :=
  match v with
  | VStr s => Ok (str_lower s)
  | _ => Raise AttributeError
  end.

(** The characters of a str, one string each: a character is a byte
    that is no continuation byte (10xxxxxx) with the continuation bytes
    that follow it. *)
Definition is_continuation (c : ascii) : bool :=
  let n := N_of_ascii c in ((128 <=? n) && (n <? 192))%N.

Fixpoint split_chars (s : string) : string * list value :=
  match s with
  | EmptyString => (EmptyString, [])
  | String c s' =>
      let (pending, done) := split_chars s' in
      if is_continuation c then (String c pending, done)
      else (EmptyString, VStr (String c pending) :: done)
  end.

Definition chars (s : string) : list value :=
  let (pending, done) := split_chars s in
  match pending with
  | EmptyString => done
  | _ => VStr pending :: done
  end.

(** [for x in v]: the elements of a [list], the characters of a [str], the
    keys of a [dict]; the other values are not iterable. *)
Definition iterate (v : value) : result (list value) :=
  match v with
  | VList l => Ok l
  | VStr s => Ok (chars s)
  | VDict m => Ok (VStr <$> (map_to_list m).*1)
  | _ => Raise TypeError
  end.

End Py.

(** ** Models *)

(** An entry of a pydantic validation error names the field it is about
    and what failed there. *)
Inductive field : Type := Fname | Fsize | Fprice.

(** [TooShort n] and [NotGreaterThan b] are the errors of
    [Field(min_length=n)] and [Field(gt=b)]; [ValueErr msg] is a
    [ValueError] raised by a registered validator. *)
Inductive constraint_error : Type :=
  | TooShort (min_length : nat)
  | NotGreaterThan (bound : float)
  | ValueErr (msg : string).

Definition ValidationError : Type := list (field * constraint_error).

Module DrinkBase.

(** An instance of the model: the three declared fields, already of their
    declared types [str], [str] and [float]. *)
Record t : Type := Build { name : string; size : string; price : float }.

(** What a validator does with a value: [return v'] or
    [raise ValueError(msg)]. *)
Inductive checked (A : Type) : Type :=
  | Return (a : A)
  | RaiseValueError (msg : string).
Arguments Return {A} a.
Arguments RaiseValueError {A} msg.

(** Line 17 of the source reads [field_validator('name')] with no [@]: the
    decorator is built and dropped, and the function below stays a plain
    method of the class that validation never calls. *)
Definition name_must_not_be_empty (v : string) : checked string :=
  if Py.not_str v || Py.not_str (Py.strip v)
  then RaiseValueError "Name cannot be empty"
  else Return (Py.strip v).

Definition size_must_be_valid (v : string) : checked string :=
  if bool_decide (v ∈ ["S"; "M"; "L"])
  then Return v
  else RaiseValueError "Size must be S, M, or L".

Definition price_must_be_positive (v : float) : checked float :=
  if (v <=? 0)%float
  then RaiseValueError "Price must be greater than 0"
  else Return v.

(** The validators that carry [@field_validator], by field. *)
Definition registered_name : list (string -> checked string) := [].
Definition registered_size : list (string -> checked string) := [size_must_be_valid].
Definition registered_price : list (float -> checked float) := [price_must_be_positive].

(** pydantic runs a field's validators in order after the [Field]
    constraints passed; a [ValueError] becomes the field's error. *)
Fixpoint run_validators {A : Type} (vs : list (A -> checked A)) (v : A)
  : A + constraint_error :=
  match vs with
  | [] => inl v
  | f :: vs' =>
      match f v with
      | Return v' => run_validators vs' v'
      | RaiseValueError msg => inr (ValueErr msg)
      end
  end.

(** [min_length=1] on the name: a str has a character exactly when its
    encoding has a byte. *)
Definition validate_name (v : string) : string + constraint_error :=
  if (1 <=? String.length v)%nat
  then run_validators registered_name v
  else inr (TooShort 1).

Definition validate_size (v : string) : string + constraint_error :=
  run_validators registered_size v.

Definition validate_price (v : float) : float + constraint_error :=
  if (0 <? v)%float
  then run_validators registered_price v
  else inr (NotGreaterThan 0).

Definition errors_of {A : Type} (f : field) (r : A + constraint_error)
  : ValidationError :=
  match r with
  | inl _ => []
  | inr e => [(f, e)]
  end.

(** Model validation: every field is checked, and the errors of all
    fields are reported together. *)
Definition model_validate (raw : t) : t + ValidationError :=
  let rn := validate_name (name raw) in
  let rs := validate_size (size raw) in
  let rp := validate_price (price raw) in
  match rn, rs, rp with
  | inl n, inl s, inl p => inl (Build n s p)
  | _, _, _ =>
      inr (errors_of Fname rn ++ errors_of Fsize rs ++ errors_of Fprice rp)%list
  end.

End DrinkBase.

(** [class DrinkCreate(DrinkBase): pass] *)
Abbreviation DrinkCreate := DrinkBase.t.

(** ** The file system and the console *)

(** A file is known by what [json.load] makes of it: a Python value, or an
    exception.  [Garbage] is text that is not JSON, an empty or truncated
    file included: a [JSONDecodeError].  [Fails e] is a file on which
    reading or parsing raises another exception [e]: a
    [UnicodeDecodeError] for bytes that are no text in the encoding [open]
    uses, a [RecursionError] for nesting too deep, and so on.
    [json.dump] followed by [json.load] gives back the value that was
    dumped; that is the contract of the [json] module for the values of
    type [value], and it is built into the model: a successful write
    stores the value itself. *)
Inductive content : Type :=
  | Garbage
  | Fails (e : exn)
  | Json (v : value).

(** How a write to a path goes wrong, when it does: [open(p, 'w')] raises
    and leaves the path as it was, or the file is opened (hence truncated)
    and the dump fails before the document is complete. *)
Inductive wfault : Type :=
  | OpenFails
  | DumpFails.

(** A line printed by the [except] handlers. *)
Inductive line : Type :=
  | ErrorLoadingData (e : exn)
  | ErrorSavingData (e : exn).

Record world : Type := World {
  files : gmap string content;      (* the paths that exist *)
  unreadable : gset string;         (* paths that [open(p, 'r')] refuses *)
  wfaults : gmap string wfault;     (* paths whose writes fail, and how *)
  stdout : list line
}.

Definition with_files (f : gmap string content) (w : world) : world :=
  World f (unreadable w) (wfaults w) (stdout w).

Definition with_stdout (o : list line) (w : world) : world :=
  World (files w) (unreadable w) (wfaults w) o.

Module DrinkStorage.

(** The attributes of an instance. [drinks] and [next_id] hold whatever
    was assigned to them: after [load_data] that is what the document
    contained. *)
Record t : Type := Build {
  data_file : string;
  drinks : value;
  next_id : value
}.

(** A method body: it reads and updates the instance and the world, and
    returns or raises. *)
Definition M (A : Type) : Type := t * world -> result A * (t * world).

#[global] Instance M_ret : MRet M := fun A a s => (Ok a, s).
#[global] Instance M_bind : MBind M := fun A B f c s =>
  match c s with
  | (Ok a, s') => f a s'
  | (Raise e, s') => (Raise e, s')
  end.

Definition self : M t := fun s => (Ok (fst s), s).

Definition set_drinks (v : value) : M unit := fun s =>
  (Ok tt, (Build (data_file (fst s)) v (next_id (fst s)), snd s)).

Definition set_next_id (v : value) : M unit := fun s =>
  (Ok tt, (Build (data_file (fst s)) (drinks (fst s)) v, snd s)).

Definition lift {A : Type} (r : result A) : M A := fun s => (r, s).

(** [try: body except Exception as e: handler] *)
Definition try_except {A : Type} (body : M A) (handler : exn -> M A) : M A :=
  fun s =>
    match body s with
    | (Raise e, s') => handler e s'
    | r => r
    end.

Definition print (l : line) : M unit := fun s =>
  (Ok tt, (fst s, with_stdout (stdout (snd s) ++ [l])%list (snd s))).

(** [os.path.exists(p)] *)
Definition os_path_exists (p : string) : M bool := fun s =>
  (Ok (bool_decide (is_Some (files (snd s) !! p))), s).

(** [with open(p, 'r') as f: json.load(f)] *)
Definition json_load (p : string) : M value := fun s =>
  match files (snd s) !! p with
  | None => (Raise OSError, s)
  | Some c =>
      if bool_decide (p ∈ unreadable (snd s)) then (Raise OSError, s)
      else match c with
           | Garbage => (Raise JSONDecodeError, s)
           | Fails e => (Raise e, s)
           | Json v => (Ok v, s)
           end
  end.

(** [with open(p, 'w') as f: json.dump(v, f)] *)
Definition json_dump (v : value) (p : string) : M unit := fun s =>
  match wfaults (snd s) !! p with
  | Some OpenFails => (Raise OSError, s)
  | Some DumpFails =>
      (Raise OSError, (fst s, with_files (<[p := Garbage]> (files (snd s))) (snd s)))
  | None =>
      (Ok tt, (fst s, with_files (<[p := Json v]> (files (snd s))) (snd s)))
  end.

(** A dict display [{k1: v1, ...}] with distinct keys. *)
Definition dict (kvs : list (string * value)) : value := VDict (list_to_map kvs).

Definition save_data : M unit :=
  try_except
    (o ← self;
     json_dump (dict [("drinks", drinks o); ("next_id", next_id o)]) (data_file o))
    (fun e => print (ErrorSavingData e)).

Definition _init_default_data : M unit :=
  o ← self;
  (if Py.startswith (data_file o) "test_" then
     set_drinks (VList [
       dict [("id", VInt 1); ("name", VStr "Test Espresso"); ("size", VStr "S"); ("price", VFloat 2.0)];
       dict [("id", VInt 2); ("name", VStr "Test Latte"); ("size", VStr "M"); ("price", VFloat 3.0)]
     ]);;
     set_next_id (VInt 3)
   else
     set_drinks (VList [
       dict [("id", VInt 1); ("name", VStr "Espresso"); ("size", VStr "S"); ("price", VFloat 2.5)];
       dict [("id", VInt 2); ("name", VStr "Latte"); ("size", VStr "M"); ("price", VFloat 3.5)];
       dict [("id", VInt 3); ("name", VStr "Cappuccino"); ("size", VStr "M"); ("price", VFloat 3.0)];
       dict [("id", VInt 4); ("name", VStr "Americano"); ("size", VStr "L"); ("price", VFloat 2.8)]
     ]);;
     set_next_id (VInt 5));;
  save_data.

Definition load_data : M unit :=
  o ← self;
  b ← os_path_exists (data_file o);
  if (b : bool) then
    try_except
      (data ← json_load (data_file o);
       d ← lift (Py.get data "drinks" (VList []));
       set_drinks d;;
       n ← lift (Py.get data "next_id" (VInt 1));
       set_next_id n)
      (fun e => print (ErrorLoadingData e);; _init_default_data)
  else
    _init_default_data.

(** [DrinkStorage(data_file)]: the constructor assigns the three
    attributes, then loads. *)
Definition __init__ (data_file : string) (w : world) : result unit * (t * world) :=
  load_data (Build data_file (VList []) (VInt 1), w).

Definition get_all_drinks (o : t) : value := drinks o.

(** The condition of the comprehension, for one element. *)
Definition name_is {L : StrLower} (name : string) (drink : value) : result bool :=
  v ← Py.subscript drink "name";
  s ← Py.lower_method v;
  mret (String.eqb s (str_lower name)).

(** [[x for x in l if cond(x)]] with a condition that may raise. *)
Fixpoint comprehension (cond : value -> result bool) (l : list value)
  : result (list value) :=
  match l with
  | [] => Ok []
  | x :: l' =>
      b ← cond x;
      r ← comprehension cond l';
      mret (if (b : bool) then x :: r else r)
  end.

Definition get_drink_by_name {L : StrLower} (o : t) (name : string)
  : result value :=
  l ← Py.iterate (drinks o);
  r ← comprehension (name_is name) l;
  mret (VList r).

Definition add_drink (drink : DrinkCreate) : M value :=
  o ← self;
  let new_drink := dict [
    ("id", next_id o);
    ("name", VStr (DrinkBase.name drink));
    ("size", VStr (DrinkBase.size drink));
    ("price", VFloat (DrinkBase.price drink))
  ] in
  l ← lift (Py.append (drinks o) new_drink);
  set_drinks l;;
  o ← self;
  n ← lift (Py.iadd_one (next_id o));
  set_next_id n;;
  save_data;;
  mret new_drink.

End DrinkStorage.

Import DrinkStorage.

(** ** Vocabulary of the properties *)

(** The instance and the world a call leaves behind, and what it returned. *)
Definition returned {A : Type} (r : result A * (t * world)) : result A := fst r.
Definition instance_after {A : Type} (r : result A * (t * world)) : t := fst (snd r).
Definition world_after {A : Type} (r : result A * (t * world)) : world := snd (snd r).

(** The fields of a stored record, when it has them with the type the data
    model gives them. *)
Definition record_name (d : value) : option string :=
  match d with
  | VDict m => match m !! "name" with Some (VStr s) => Some s | _ => None end
  | _ => None
  end.

Definition record_id (d : value) : option Z :=
  match d with
  | VDict m => match m !! "id" with Some (VInt i) => Some i | _ => None end
  | _ => None
  end.

(** A sequence of records in the sense of the data model, as far as the
    queries need it: every element is a dict with a [str] under "name". *)
Definition named (l : list value) : Prop :=
  Forall (fun d => is_Some (record_name d)) l.

(** The record [add_drink] builds for an input when the counter is [n]. *)
Definition new_record (n : Z) (drink : DrinkCreate) : value :=
  dict [("id", VInt n); ("name", VStr (DrinkBase.name drink));
        ("size", VStr (DrinkBase.size drink));
        ("price", VFloat (DrinkBase.price drink))].

(** The document [save_data] writes for an instance. *)
Definition document (o : t) : value :=
  dict [("drinks", drinks o); ("next_id", next_id o)].

(** A creation input is valid when model validation accepts it. *)
Definition valid (drink : DrinkCreate) : Prop :=
  DrinkBase.model_validate drink = inl drink.

(** The record has a name that matches the query: the two have the same
    lower-case form. *)
Definition has_name {L : StrLower} (q : string) (d : value) : Prop :=
  exists s, record_name d = Some s /\ str_lower s = str_lower q.

(** The test of the comprehension on a record that has a name. *)
Definition matches_name {L : StrLower} (q : string) (d : value) : bool :=
  match record_name d with
  | Some s => String.eqb (str_lower s) (str_lower q)
  | None => false
  end.

(** [selects P l r]: [r] is the subsequence of [l], in the order of [l] and
    with its repetitions, of the elements that satisfy [P]. *)
Inductive selects {A : Type} (P : A -> Prop) : list A -> list A -> Prop :=
  | selects_nil : selects P [] []
  | selects_keep x l r : P x -> selects P l r -> selects P (x :: l) (x :: r)
  | selects_skip x l r : ~ P x -> selects P l r -> selects P (x :: l) r.

(** What the [try] block of [load_data] obtains from the path: the dict the
    document holds, when the file exists, can be read and is a JSON
    object; nothing otherwise. *)
Definition loadable (w : world) (p : string) : option (gmap string value) :=
  match files w !! p with
  | Some (Json (VDict m)) => if bool_decide (p ∈ unreadable w) then None else Some m
  | _ => None
  end.

(** The state [load_data] takes from a document: each member, or the
    default of its [get]. *)
Definition loaded (p : string) (m : gmap string value) : t :=
  Build p (default (VList []) (m !! "drinks")) (default (VInt 1) (m !! "next_id")).

(** The path of the instance holds a document with the instance's records
    and counter. *)
Definition persisted (o : t) (w : world) : Prop :=
  exists m, files w !! data_file o = Some (Json (VDict m)) /\
            loaded (data_file o) m = o.

Definition nonempty (o : t) : Prop :=
  exists d l, drinks o = VList (d :: l).

(** The counter is an integer above the integer id of every record. *)
Definition counter_above_ids (o : t) : Prop :=
  exists l n, drinks o = VList l /\ next_id o = VInt n /\
    Forall (fun d => exists i, record_id d = Some i /\ i < n) l.

(** The id rules of the data model: ids are positive integers, unique in
    the store, and below the integer counter. *)
Definition id_rules (o : t) : Prop :=
  exists l n, drinks o = VList l /\ next_id o = VInt n /\
    Forall (fun d => exists i, record_id d = Some i /\ 0 < i < n) l /\
    NoDup (record_id <$> l).

(** The states of a store: created by the constructor, then changed by
    [add_drink] with valid inputs, in whatever world each call finds. *)
Inductive reachable : t -> Prop :=
  | reachable_init p w : reachable (instance_after (__init__ p w))
  | reachable_add o drink w :
      reachable o -> valid drink ->
      reachable (instance_after (add_drink drink (o, w))).

(** The states a given instance can be taken to by later [add_drink]
    calls. *)
Inductive later (o0 : t) : t -> Prop :=
  | later_now : later o0 o0
  | later_add o drink w :
      later o0 o -> later o0 (instance_after (add_drink drink (o, w))).

(** ** Sample inputs and worlds *)

Definition empty_world : world := World ∅ ∅ ∅ [].

(** The state [_init_default_data] gives an instance created for a path. *)
Definition seeded (p : string) : t :=
  instance_after (_init_default_data (Build p (VList []) (VInt 1), empty_world)).

(** A world in which the path holds the given document. *)
Definition world_with (p : string) (doc : content) : world :=
  World {[ p := doc ]} ∅ ∅ [].

(** A world in which the path is absent and cannot be written. *)
Definition readonly_world (p : string) : world :=
  World ∅ ∅ {[ p := OpenFails ]} [].

Definition mocha : DrinkCreate := DrinkBase.Build "Mocha" "L" 4.0.

Definition espresso : value :=
  dict [("id", VInt 1); ("name", VStr "Espresso"); ("size", VStr "S"); ("price", VFloat 2.5)].
Definition latte : value :=
  dict [("id", VInt 2); ("name", VStr "Latte"); ("size", VStr "M"); ("price", VFloat 3.5)].
Definition cappuccino : value :=
  dict [("id", VInt 3); ("name", VStr "Cappuccino"); ("size", VStr "M"); ("price", VFloat 3.0)].
Definition americano : value :=
  dict [("id", VInt 4); ("name", VStr "Americano"); ("size", VStr "L"); ("price", VFloat 2.8)].

Definition test_espresso : value :=
  dict [("id", VInt 1); ("name", VStr "Test Espresso"); ("size", VStr "S"); ("price", VFloat 2.0)].
Definition test_latte : value :=
  dict [("id", VInt 2); ("name", VStr "Test Latte"); ("size", VStr "M"); ("price", VFloat 3.0)].

(** Records no creation input could produce: an empty name, a size outside
    S, M, L, prices that are not positive, and one id, not positive, used
    twice. *)
Definition nameless : value :=
  dict [("id", VInt 0); ("name", VStr EmptyString); ("size", VStr "XL"); ("price", VFloat (-1.0))].
Definition free_water : value :=
  dict [("id", VInt 0); ("name", VStr "Water"); ("size", VStr "M"); ("price", VFloat 0.0)].

(** A document that parses and breaks the rules of the data model. *)
Definition unruly_document : gmap string value :=
  list_to_map [("drinks", VList [nameless; free_water]); ("next_id", VInt 0)].

(** A document of the persisted layout that holds no drink. *)
Definition empty_document : gmap string value :=
  list_to_map [("drinks", VList []); ("next_id", VInt 1)].

(** A document that parses, with a counter below the id of its record. *)
Definition stale_counter_document : gmap string value :=
  list_to_map [("drinks", VList [dict [("id", VInt 5); ("name", VStr "Mocha");
                                       ("size", VStr "L"); ("price", VFloat 4.0)]]);
               ("next_id", VInt 1)].

(** The instance the scenarios of the specification start from. *)
Definition menu : t :=
  Build "drinks.json" (VList [espresso; latte; cappuccino; americano]) (VInt 5).

(** ** The application *)

Module App.

(** How a call of a path operation function ends: it returns a value, it
    raises [HTTPException(status_code, detail)], or another exception
    leaves it.  What FastAPI then makes of the returned value (the
    [response_model] and the JSON encoding) is not part of the model. *)
Inductive outcome (A : Type) : Type :=
  | Returns (a : A)
  | HTTPException (status_code : Z) (detail : string)
  | Propagates (e : exn).
Arguments Returns {A} a.
Arguments HTTPException {A} status_code detail.
Arguments Propagates {A} e.

(** [bool(v)], as [not v] and [if v] use it. *)
Definition truth (v : value) : bool :=
  match v with
  | VNone => false
  | VBool b => b
  | VInt z => negb (z =? 0)%Z
  | VFloat f => negb (f =? 0)%float
  | VStr s => negb (Py.not_str s)
  | VList l => match l with [] => false | _ => true end
  | VDict m => negb (bool_decide (m = ∅))
  end.

(** [DrinkStorage()]: the constructor with its default [data_file]. *)
Definition get_drink_storage (w : world) : result unit * (t * world) :=
  __init__ "drinks.json" w.

Definition read_root : value :=
  dict [("message", VStr "Welcome to VirtualCoffee Drinks API")].

Definition get_menu (storage : t) : value := get_all_drinks storage.

Definition get_drink {L : StrLower} (name : string) (storage : t)
  : outcome value :=
  match get_drink_by_name storage name with
  | Raise e => Propagates e
  | Ok drinks =>
      if negb (truth drinks)
      then HTTPException 404 "Drink not found"
      else Returns drinks
  end.

Definition add_drink (drink : DrinkCreate) : M value :=
  DrinkStorage.add_drink drink.

(** One request: [Depends(get_drink_storage)] makes FastAPI call the
    dependency, once for the request, and pass what it returned to the
    path operation function. *)
Definition depends {A : Type} (handler : t * world -> outcome A * world)
  (w : world) : outcome A * world :=
  match get_drink_storage w with
  | (Ok _, s) => handler s
  | (Raise e, s) => (Propagates e, snd s)
  end.

Definition serve_get_menu : world -> outcome value * world :=
  depends (fun s => (Returns (get_menu (fst s)), snd s)).

Definition serve_get_drink {L : StrLower} (name : string)
  : world -> outcome value * world :=
  depends (fun s => (get_drink name (fst s), snd s)).

Definition serve_add_drink (drink : DrinkCreate) : world -> outcome value * world :=
  depends (fun s =>
    match add_drink drink s with
    | (Ok v, s') => (Returns v, snd s')
    | (Raise e, s') => (Propagates e, snd s')
    end).

End App.

(** ** Vocabulary of the further properties *)

(** The sizes the model allows. *)
Definition size_allowed (s : string) : Prop := s = "S" \/ s = "M" \/ s = "L".

(** Successive [add_drink] calls on one instance. *)
Fixpoint add_drinks (ds : list DrinkCreate) : M (list value) :=
  match ds with
  | [] => mret []
  | d :: ds' =>
      r ← add_drink d;
      rs ← add_drinks ds';
      mret (r :: rs)
  end.

(** The records built for a list of inputs from the counter [n] on. *)
Fixpoint records_from (n : Z) (ds : list DrinkCreate) : list value :=
  match ds with
  | [] => []
  | d :: ds' => new_record n d :: records_from (n + 1) ds'
  end.

(** The line [save_data] prints, if any, in a world. *)
Definition save_lines (w : world) (p : string) : list line :=
  match wfaults w !! p with
  | None => []
  | Some _ => [ErrorSavingData OSError]
  end.

(** The line [load_data] prints, if any, for a path that exists and
    cannot be loaded: [open] refuses, or [json.load] raises, or the
    document has no [get]. *)
Definition load_lines (w : world) (p : string) : list line :=
  match files w !! p with
  | None => []
  | Some c =>
      [ErrorLoadingData
         (if bool_decide (p ∈ unreadable w) then OSError
          else match c with
               | Garbage => JSONDecodeError
               | Fails e => e
               | Json _ => AttributeError
               end)]
  end.

(** A record with the four fields of the [Drink] model, each of its type
    and within the rules validation enforces, and a positive id. *)
Definition record_conforms (d : value) : Prop :=
  exists m i nm sz pr,
    d = VDict m /\
    m !! "id" = Some (VInt i) /\ 0 < i /\
    m !! "name" = Some (VStr nm) /\ nm <> EmptyString /\
    m !! "size" = Some (VStr sz) /\ size_allowed sz /\
    m !! "price" = Some (VFloat pr) /\ (0 <? pr)%float = true.

(** A store of such records with a positive integer counter. *)
Definition conforming (o : t) : Prop :=
  exists l n, drinks o = VList l /\ next_id o = VInt n /\ 0 < n /\
              Forall record_conforms l.

(** The states a given instance can be taken to by [add_drink] calls whose
    inputs passed validation. *)
Inductive grown (o0 : t) : t -> Prop :=
  | grown_now : grown o0 o0
  | grown_add o drink w :
      grown o0 o -> valid drink ->
      grown o0 (instance_after (add_drink drink (o, w))).

(** A document with a record of id 1 and no counter. *)
Definition counterless_document : gmap string value :=
  list_to_map [("drinks", VList [espresso])].

(** A world in which the path holds the menu and cannot be written. *)
Definition frozen_world (p : string) : world :=
  World {[ p := Json (document (Build p (VList [espresso; latte; cappuccino; americano]) (VInt 5))) ]}
        ∅ {[ p := OpenFails ]} [].

#[local] Arguments save_data : simpl never.
#[local] Arguments _init_default_data : simpl never.

Ltac run :=
  unfold add_drink, save_data, load_data, _init_default_data, __init__,
    try_except, json_dump, json_load, os_path_exists, print, lift,
    set_drinks, set_next_id, self, returned, instance_after, world_after,
    mbind, M_bind, result_bind, mret, M_ret, result_ret in *;
  simpl in *.

(** ** Letter case *)

Lemma N_of_ascii_inj c1 c2 : N_of_ascii c1 = N_of_ascii c2 -> c1 = c2.
Proof.
  intros H. rewrite <- (ascii_N_embedding c1), <- (ascii_N_embedding c2).
  now rewrite H.
Qed.

Lemma is_upper_spec c :
  Py.is_upper c = true <-> (65 <= N_of_ascii c <= 90)%N.
Proof.
  unfold Py.is_upper. cbv zeta.
  rewrite andb_true_iff, !N.leb_le. tauto.
Qed.

Lemma N_of_lower_char c :
  N_of_ascii (Py.lower_char c) =
  (if Py.is_upper c then N_of_ascii c + 32 else N_of_ascii c)%N.
Proof.
  unfold Py.lower_char. destruct (Py.is_upper c) eqn:E; [|reflexivity].
  apply is_upper_spec in E. apply N_ascii_embedding. lia.
Qed.

Lemma lower_char_same_letter c1 c2 :
  Py.lower_char c1 = Py.lower_char c2 <-> same_letter c1 c2.
Proof.
  unfold same_letter. cbv zeta. split.
  - intros H. apply (f_equal N_of_ascii) in H. rewrite !N_of_lower_char in H.
    destruct (Py.is_upper c1) eqn:E1, (Py.is_upper c2) eqn:E2;
      try apply is_upper_spec in E1; try apply is_upper_spec in E2; lia.
  - intros H. apply N_of_ascii_inj. rewrite !N_of_lower_char.
    destruct (Py.is_upper c1) eqn:E1, (Py.is_upper c2) eqn:E2;
      try apply is_upper_spec in E1; try apply is_upper_spec in E2;
      try (apply not_true_iff_false in E1; rewrite is_upper_spec in E1);
      try (apply not_true_iff_false in E2; rewrite is_upper_spec in E2);
      lia.
Qed.

Lemma lower_eq_ignore_case s1 s2 :
  Py.ascii_lower s1 = Py.ascii_lower s2 <-> eq_ignore_case s1 s2.
Proof.
  split.
  - revert s2. induction s1 as [|c1 s1 IH]; intros [|c2 s2] H;
      simpl in H; try discriminate.
    + constructor.
    + injection H as Hc Hs. constructor.
      * now apply lower_char_same_letter.
      * now apply IH.
  - induction 1 as [|c1 c2 s1 s2 Hc _ IH]; simpl; [reflexivity|].
    apply lower_char_same_letter in Hc. now rewrite Hc, IH.
Qed.

(** ** Running the methods *)

Lemma save_data_ok o w :
  wfaults w !! data_file o = None ->
  save_data (o, w) =
  (Ok tt, (o, with_files (<[data_file o := Json (document o)]> (files w)) w)).
Proof. intros H. run. now rewrite H. Qed.

Lemma save_data_fault o w f :
  wfaults w !! data_file o = Some f ->
  save_data (o, w) =
  (Ok tt, (o, with_stdout (stdout w ++ [ErrorSavingData OSError])
                (match f with
                 | OpenFails => w
                 | DumpFails => with_files (<[data_file o := Garbage]> (files w)) w
                 end))).
Proof. intros H. run. rewrite H. now destruct f. Qed.

Lemma save_data_returns o w : exists w', save_data (o, w) = (Ok tt, (o, w')).
Proof.
  destruct (wfaults w !! data_file o) as [f|] eqn:E.
  - eexists. apply (save_data_fault _ _ _ E).
  - eexists. apply (save_data_ok _ _ E).
Qed.

Lemma add_drink_run drink o w l n :
  drinks o = VList l -> next_id o = VInt n ->
  let o' := Build (data_file o) (VList (l ++ [new_record n drink])) (VInt (n + 1)) in
  add_drink drink (o, w) =
  (Ok (new_record n drink), (o', world_after (save_data (o', w)))).
Proof.
  intros Hl Hn o'. destruct (save_data_returns o' w) as [w' Hw].
  unfold world_after. rewrite Hw. revert Hw. subst o'.
  destruct o as [p d i]. simpl in *. subst d i.
  unfold add_drink, new_record, mbind, M_bind, self, lift, set_drinks, set_next_id.
  simpl. intros ->. reflexivity.
Qed.

Lemma init_default_data_run o w :
  _init_default_data (o, w) =
  (Ok tt, (seeded (data_file o),
           world_after (save_data (seeded (data_file o), w)))).
Proof.
  unfold seeded, instance_after, world_after, _init_default_data, mbind,
    M_bind, self, set_drinks, set_next_id.
  simpl. destruct (Py.startswith (data_file o) "test_"); simpl.
  all: match goal with
       | |- context [save_data (?x, empty_world)] =>
           destruct (save_data_returns x empty_world) as [w0 H0];
           destruct (save_data_returns x w) as [w1 H1]
       end.
  all: rewrite H0; simpl; rewrite H1; reflexivity.
Qed.

(** Whatever the path holds that cannot be loaded, the constructor ends in
    the seeded state after one attempt to save it; the [except] handler may
    have printed a line before. *)
Lemma init_fallback p w :
  loadable w p = None ->
  exists out,
    __init__ p w =
    (Ok tt, (seeded p, world_after (save_data (seeded p, with_stdout out w)))).
Proof.
  intros H.
  assert (Hh : forall out, exists out',
    _init_default_data (Build p (VList []) (VInt 1), with_stdout out w) =
    (Ok tt, (seeded p, world_after (save_data (seeded p, with_stdout out' w))))).
  { intros out. exists out. apply init_default_data_run. }
  assert (H0 : with_stdout (stdout w) w = w) by now destruct w.
  unfold loadable in H.
  unfold __init__, load_data, mbind, M_bind, self, os_path_exists,
    try_except, json_load, lift, print.
  cbn in *.
  repeat (case_match; cbn in *; simplify_eq); try apply Hh.
  exists (stdout w). rewrite H0. apply init_default_data_run.
Qed.

(** A readable JSON object is taken as it is: its "drinks" and "next_id"
    members become the state, nothing is checked and nothing is written. *)
Lemma init_load p w m :
  loadable w p = Some m ->
  __init__ p w =
  (Ok tt, (Build p (default (VList []) (m !! "drinks"))
                   (default (VInt 1) (m !! "next_id")), w)).
Proof.
  intros H. unfold loadable in H.
  unfold __init__, load_data, mbind, M_bind, self, os_path_exists,
    try_except, json_load, lift, set_drinks, set_next_id.
  cbn in *.
  repeat (case_match; cbn in *; simplify_eq); try reflexivity.
  unfold Py.get in *. simplify_eq. reflexivity.
Qed.

Lemma seeded_eq p :
  seeded p =
  if Py.startswith p "test_"
  then Build p (VList [test_espresso; test_latte]) (VInt 3)
  else Build p (VList [espresso; latte; cappuccino; americano]) (VInt 5).
Proof.
  unfold seeded, instance_after, _init_default_data, mbind, M_bind, self,
    set_drinks, set_next_id.
  unfold Py.startswith. cbn. destruct (String.prefix "test_" p); cbn.
  all: match goal with
       | |- context [save_data (?x, empty_world)] =>
           destruct (save_data_returns x empty_world) as [w0 H0]
       end.
  all: rewrite H0; reflexivity.
Qed.

(** ** Queries *)

Lemma name_is_named {L : StrLower} q d :
  is_Some (record_name d) -> name_is q d = Ok (matches_name q d).
Proof.
  intros [s Hs]. unfold matches_name. rewrite Hs.
  unfold record_name in Hs. destruct d; try discriminate.
  unfold name_is, Py.subscript, mbind, result_bind.
  destruct (m !! "name") as [[]|]; try discriminate.
  injection Hs as ->. reflexivity.
Qed.

Lemma comprehension_named {L : StrLower} q l :
  named l -> comprehension (name_is q) l = Ok (List.filter (matches_name q) l).
Proof.
  induction 1 as [|d l Hd _ IH]; [reflexivity|].
  cbn [comprehension List.filter]. rewrite (name_is_named q d Hd).
  unfold mbind, result_bind in *. rewrite IH. reflexivity.
Qed.

Lemma get_drink_by_name_run {L : StrLower} o q l :
  drinks o = VList l -> named l ->
  get_drink_by_name o q = Ok (VList (List.filter (matches_name q) l)).
Proof.
  intros Hl Hn. unfold get_drink_by_name. rewrite Hl. cbn [Py.iterate].
  unfold mbind, result_bind. rewrite (comprehension_named q l Hn). reflexivity.
Qed.

Lemma matches_name_has_name {L : StrLower} q d :
  matches_name q d = true <-> has_name q d.
Proof.
  unfold matches_name, has_name. split.
  - destruct (record_name d) as [s|]; [|discriminate].
    intros H. apply String.eqb_eq in H. now exists s.
  - intros (s & -> & H). now apply String.eqb_eq.
Qed.

Lemma filter_selects {L : StrLower} q l :
  selects (has_name q) l (List.filter (matches_name q) l).
Proof.
  induction l as [|d l IH]; [constructor|].
  cbn [List.filter]. destruct (matches_name q d) eqn:E.
  - apply selects_keep; [now apply matches_name_has_name|exact IH].
  - apply selects_skip; [|exact IH].
    intros H. apply matches_name_has_name in H. congruence.
Qed.

Lemma selects_none {A : Type} (P : A -> Prop) l r :
  selects P l r -> (forall x, x ∈ l -> ~ P x) -> r = [].
Proof.
  induction 1 as [|x l r Hx _ IH|x l r Hx _ IH]; intros Hno.
  - reflexivity.
  - exfalso. apply (Hno x); [left|exact Hx].
  - apply IH. intros y Hy. apply Hno. now right.
Qed.

Lemma new_record_fields n drink :
  Py.subscript (new_record n drink) "id" = Ok (VInt n) /\
  Py.subscript (new_record n drink) "name" = Ok (VStr (DrinkBase.name drink)) /\
  Py.subscript (new_record n drink) "size" = Ok (VStr (DrinkBase.size drink)) /\
  Py.subscript (new_record n drink) "price" = Ok (VFloat (DrinkBase.price drink)).
Proof. repeat split; reflexivity. Qed.

Lemma new_record_name n drink :
  record_name (new_record n drink) = Some (DrinkBase.name drink).
Proof. reflexivity. Qed.

Lemma new_record_id n drink : record_id (new_record n drink) = Some n.
Proof. reflexivity. Qed.

(** ** Creation *)

(** C1: for every creation input (valid or not) and every store state, that
    is every instance whose [drinks] is a list and whose [next_id] is an
    integer [n], [add_drink] returns the record it built from the input with
    id [n], leaves the list with that record appended at its end, and leaves
    the counter at [n + 1]. *)
Theorem C1_add_drink_assigns_next_id drink o w l n :
  drinks o = VList l -> next_id o = VInt n ->
  let r := add_drink drink (o, w) in
  returned r = Ok (new_record n drink) /\
  Py.subscript (new_record n drink) "id" = Ok (VInt n) /\
  Py.subscript (new_record n drink) "name" = Ok (VStr (DrinkBase.name drink)) /\
  Py.subscript (new_record n drink) "size" = Ok (VStr (DrinkBase.size drink)) /\
  Py.subscript (new_record n drink) "price" = Ok (VFloat (DrinkBase.price drink)) /\
  get_all_drinks (instance_after r) = VList (l ++ [new_record n drink]) /\
  next_id (instance_after r) = VInt (n + 1) /\
  data_file (instance_after r) = data_file o.
Proof.
  intros Hl Hn r. subst r. rewrite (add_drink_run drink o w l n Hl Hn).
  destruct (new_record_fields n drink) as (Hi & Hna & Hs & Hp).
  repeat split; assumption.
Qed.

Lemma C1_witness :
  (drinks menu = VList [espresso; latte; cappuccino; americano] /\
   next_id menu = VInt 5) /\
  returned (add_drink mocha (menu, empty_world)) = Ok (new_record 5 mocha) /\
  get_all_drinks (instance_after (add_drink mocha (menu, empty_world))) =
    VList [espresso; latte; cappuccino; americano; new_record 5 mocha] /\
  next_id (instance_after (add_drink mocha (menu, empty_world))) = VInt 6.
Proof.
  split; [split; reflexivity|].
  destruct (C1_add_drink_assigns_next_id mocha menu empty_world
              [espresso; latte; cappuccino; americano] 5 eq_refl eq_refl)
    as (Hr & _ & _ & _ & _ & Hl & Hn & _).
  repeat split; assumption.
Defined.

Lemma mocha_valid : valid mocha.
Proof. reflexivity. Qed.

(** C3 (as stated, it fails): a valid input, a path that cannot be
    written, and [add_drink] returns the new record instead of raising. *)
Lemma C3_counterexample :
  valid mocha /\
  wfaults (readonly_world "drinks.json") !! data_file menu = Some OpenFails /\
  returned (add_drink mocha (menu, readonly_world "drinks.json")) =
    Ok (new_record 5 mocha).
Proof. split; [exact mocha_valid|]. split; reflexivity. Qed.

(** C3 (amended): when the write of the document cannot complete,
    [save_data] catches the error and prints it, and [add_drink] returns the
    newly built record normally; no exception leaves the call.  The path
    keeps what it held when the file could not be opened, and holds an
    unparsable file when the dump broke off. *)
Theorem C3_add_drink_returns_when_write_fails drink o w f l n :
  drinks o = VList l -> next_id o = VInt n ->
  wfaults w !! data_file o = Some f ->
  let r := add_drink drink (o, w) in
  returned r = Ok (new_record n drink) /\
  stdout (world_after r) = (stdout w ++ [ErrorSavingData OSError])%list /\
  files (world_after r) !! data_file o =
    match f with
    | OpenFails => files w !! data_file o
    | DumpFails => Some Garbage
    end.
Proof.
  intros Hl Hn Hf r. subst r. rewrite (add_drink_run drink o w l n Hl Hn).
  unfold returned, world_after. cbn [fst snd].
  rewrite (save_data_fault _ w f) by exact Hf. cbn [fst snd].
  split; [reflexivity|]. split; [reflexivity|].
  destruct f; cbn [files with_stdout with_files data_file].
  - reflexivity.
  - apply lookup_insert_eq.
Qed.

Lemma C3_witness :
  (drinks menu = VList [espresso; latte; cappuccino; americano] /\
   next_id menu = VInt 5 /\
   wfaults (readonly_world "drinks.json") !! data_file menu = Some OpenFails) /\
  returned (add_drink mocha (menu, readonly_world "drinks.json")) =
    Ok (new_record 5 mocha) /\
  stdout (world_after (add_drink mocha (menu, readonly_world "drinks.json"))) =
    [ErrorSavingData OSError] /\
  files (world_after (add_drink mocha (menu, readonly_world "drinks.json")))
    !! "drinks.json" = None.
Proof.
  split; [repeat split; reflexivity|].
  exact (C3_add_drink_returns_when_write_fails mocha menu
           (readonly_world "drinks.json") OpenFails
           [espresso; latte; cappuccino; americano] 5 eq_refl eq_refl eq_refl).
Defined.

Lemma add_drink_grows drink o w l n :
  drinks o = VList l -> next_id o = VInt n ->
  instance_after (add_drink drink (o, w)) =
  Build (data_file o) (VList (l ++ [new_record n drink])) (VInt (n + 1)).
Proof. intros Hl Hn. now rewrite (add_drink_run drink o w l n Hl Hn). Qed.

Lemma named_app l1 l2 : named l1 -> named l2 -> named (l1 ++ l2).
Proof. unfold named. intros H1 H2. apply Forall_app. now split. Qed.

Lemma named_new_record n drink : named [new_record n drink].
Proof.
  constructor; [|constructor]. rewrite new_record_name. now eexists.
Qed.




(** Outside the data model the call can stop half way: with a counter that
    is not a number the record is appended, then [+= 1] raises; the counter
    is unchanged and nothing is saved. *)
Example add_drink_with_null_counter :
  add_drink mocha (Build "drinks.json" (VList []) VNone, empty_world) =
  (Raise TypeError,
   (Build "drinks.json" (VList [dict [("id", VNone); ("name", VStr "Mocha");
                                     ("size", VStr "L"); ("price", VFloat 4.0)]])
          VNone,
    empty_world)).
Proof. reflexivity. Qed.

(** ** Lookup by name *)


Lemma menu_named : named [espresso; latte; cappuccino; americano].
Proof. repeat constructor; now eexists. Qed.


(** The scenarios of the specification, and a prefix of a name; their
    strings are ASCII. *)
Example find_latte :
  get_drink_by_name (L := Py.ascii_text) menu "latte" = Ok (VList [latte]).
Proof. reflexivity. Qed.

Example find_ESPRESSO :
  get_drink_by_name (L := Py.ascii_text) menu "ESPRESSO" = Ok (VList [espresso]).
Proof. reflexivity. Qed.

Example find_Cortado :
  get_drink_by_name (L := Py.ascii_text) menu "Cortado" = Ok (VList []).
Proof. reflexivity. Qed.

Example find_prefix :
  get_drink_by_name (L := Py.ascii_text) menu "Lat" = Ok (VList []).
Proof. reflexivity. Qed.

(** Outside the data model the comprehension raises: an element with no
    name is a [KeyError]. *)
Example find_in_nameless_record {L : StrLower} :
  get_drink_by_name (Build "drinks.json" (VList [dict [("id", VInt 1)]]) (VInt 2))
    "latte" = Raise KeyError.
Proof. reflexivity. Qed.

(** ** Loading *)

(** C10: a document that parses (a JSON object, readable at the path) is
    taken as it is.  [get_all_drinks] returns its "drinks" member unchanged
    and the counter is its "next_id" member, with no condition on the
    fields of the records; when the member is a list of records that have a
    name, [get_drink_by_name] returns the matching ones among them,
    unchanged.  Nothing is checked, and nothing is written. *)
Theorem C10_loaded_records_are_not_validated {L : StrLower} p w m :
  loadable w p = Some m ->
  let o := instance_after (__init__ p w) in
  returned (__init__ p w) = Ok tt /\
  get_all_drinks o = default (VList []) (m !! "drinks") /\
  next_id o = default (VInt 1) (m !! "next_id") /\
  world_after (__init__ p w) = w /\
  (forall l q, m !! "drinks" = Some (VList l) -> named l ->
     exists r, get_drink_by_name o q = Ok (VList r) /\
               selects (has_name q) l r).
Proof.
  intros H o. subst o. rewrite (init_load p w m H).
  unfold returned, instance_after, world_after, get_all_drinks.
  cbn [fst snd drinks next_id].
  repeat split. intros l q Hl Hn.
  exists (List.filter (matches_name q) l). split; [|apply filter_selects].
  apply get_drink_by_name_run; [|exact Hn]. cbn [drinks]. now rewrite Hl.
Qed.

Lemma C10_witness :
  loadable (world_with "drinks.json" (Json (VDict unruly_document))) "drinks.json"
    = Some unruly_document /\
  let o := instance_after
    (__init__ "drinks.json" (world_with "drinks.json" (Json (VDict unruly_document)))) in
  returned (__init__ "drinks.json"
    (world_with "drinks.json" (Json (VDict unruly_document)))) = Ok tt /\
  get_all_drinks o = VList [nameless; free_water] /\
  next_id o = VInt 0 /\
  world_after (__init__ "drinks.json"
    (world_with "drinks.json" (Json (VDict unruly_document)))) =
    world_with "drinks.json" (Json (VDict unruly_document)) /\
  (forall l q, unruly_document !! "drinks" = Some (VList l) -> named l ->
     exists r, get_drink_by_name (L := Py.ascii_text) o q = Ok (VList r) /\
               selects (has_name (L := Py.ascii_text) q) l r).
Proof.
  split; [reflexivity|].
  exact (C10_loaded_records_are_not_validated (L := Py.ascii_text) "drinks.json"
           (world_with "drinks.json" (Json (VDict unruly_document)))
           unruly_document eq_refl).
Defined.

(** The records of [unruly_document] come back from the queries as they
    are, and none of them would pass model validation. *)
Example unruly_find :
  get_drink_by_name (L := Py.ascii_text)
    (instance_after (__init__ "drinks.json"
       (world_with "drinks.json" (Json (VDict unruly_document)))))
    "WATER" = Ok (VList [free_water]).
Proof. reflexivity. Qed.

Example unruly_rejected_on_creation :
  DrinkBase.model_validate (DrinkBase.Build EmptyString "XL" (-1.0)) =
    inr [(Fname, TooShort 1); (Fsize, ValueErr "Size must be S, M, or L");
         (Fprice, NotGreaterThan 0)] /\
  DrinkBase.model_validate (DrinkBase.Build "Water" "M" 0.0) =
    inr [(Fprice, NotGreaterThan 0)].
Proof. split; reflexivity. Qed.

(** C9: for every instance, whatever its records and counter, saving it to
    its path (the write succeeding) and constructing a new instance from
    that path (the file being readable) gives back the same records in the
    same order and the same counter: the new instance equals the saved one,
    and constructing it writes nothing. *)
Theorem C9_load_after_save o w :
  wfaults w !! data_file o = None ->
  data_file o ∉ unreadable w ->
  let w' := world_after (save_data (o, w)) in
  returned (__init__ (data_file o) w') = Ok tt /\
  instance_after (__init__ (data_file o) w') = o /\
  world_after (__init__ (data_file o) w') = w'.
Proof.
  intros Hw Hr w'. subst w'. unfold returned, instance_after, world_after.
  rewrite (save_data_ok o w Hw). cbn [fst snd].
  set (w' := with_files _ w).
  assert (Hload : loadable w' (data_file o) =
                  Some (list_to_map [("drinks", drinks o); ("next_id", next_id o)])).
  { unfold loadable, w'. cbn [files with_files unreadable].
    rewrite lookup_insert_eq. unfold document, dict.
    now rewrite bool_decide_false. }
  rewrite (init_load _ _ _ Hload). cbn [fst snd].
  split; [reflexivity|]. split; [|reflexivity]. now destruct o.
Qed.

Lemma C9_witness :
  (wfaults empty_world !! data_file menu = None /\
   data_file menu ∉ unreadable empty_world) /\
  let w' := world_after (save_data (menu, empty_world)) in
  returned (__init__ (data_file menu) w') = Ok tt /\
  instance_after (__init__ (data_file menu) w') = menu /\
  world_after (__init__ (data_file menu) w') = w'.
Proof.
  assert (Hr : data_file menu ∉ unreadable empty_world)
    by apply not_elem_of_empty.
  split; [split; [reflexivity|exact Hr]|].
  exact (C9_load_after_save menu empty_world eq_refl Hr).
Defined.

(** ** Construction *)

Lemma init_returns p w : returned (__init__ p w) = Ok tt.
Proof.
  destruct (loadable w p) as [m|] eqn:E.
  - now rewrite (init_load p w m E).
  - destruct (init_fallback p w E) as [out ->]. reflexivity.
Qed.

Lemma seeded_data_file p : data_file (seeded p) = p.
Proof. rewrite seeded_eq. now destruct (Py.startswith p "test_"). Qed.

Lemma seeded_nonempty p : nonempty (seeded p).
Proof.
  unfold nonempty. rewrite seeded_eq.
  destruct (Py.startswith p "test_"); cbn [drinks]; eauto.
Qed.

Lemma seeded_id_rules p : id_rules (seeded p).
Proof.
  unfold id_rules. rewrite seeded_eq.
  destruct (Py.startswith p "test_"); cbn [drinks next_id].
  - exists [test_espresso; test_latte], 3. repeat split.
    + repeat constructor; eexists; (split; [reflexivity|lia]).
    + apply (bool_decide_unpack _). vm_compute. exact I.
  - exists [espresso; latte; cappuccino; americano], 5. repeat split.
    + repeat constructor; eexists; (split; [reflexivity|lia]).
    + apply (bool_decide_unpack _). vm_compute. exact I.
Qed.

Lemma id_rules_counter_above_ids o : id_rules o -> counter_above_ids o.
Proof.
  intros (l & n & Hl & Hn & Hids & _). exists l, n. repeat split; try assumption.
  eapply Forall_impl; [exact Hids|]. intros d (i & Hi & Hlt). exists i. split; [assumption|lia].
Qed.

Lemma persisted_after_save o w :
  wfaults w !! data_file o = None ->
  persisted o (world_after (save_data (o, w))).
Proof.
  intros Hw. rewrite (save_data_ok o w Hw). unfold persisted, world_after.
  cbn [fst snd files with_files].
  exists (list_to_map [("drinks", drinks o); ("next_id", next_id o)]).
  split; [apply lookup_insert_eq|]. now destruct o.
Qed.

(** C6 (as stated, it fails): a document with an empty list of drinks
    parses and leaves the store empty; and with no file and a path that
    cannot be written, the seeded state is not on disk after construction. *)
Lemma C6_counterexample :
  instance_after (__init__ "drinks.json"
    (world_with "drinks.json" (Json (VDict empty_document))))
    = Build "drinks.json" (VList []) (VInt 1) /\
  files (world_after (__init__ "drinks.json" (readonly_world "drinks.json")))
    !! "drinks.json" = None.
Proof. split; reflexivity. Qed.

(** C6 (amended): construction always completes.  When nothing can be
    loaded from the path (no file, an unreadable or unparsable one, a
    document that is not an object) and the path can be written, or when
    the document loaded holds itself a non-empty list that satisfies the id
    rules, the store afterwards holds a non-empty list of records,
    satisfies the id rules, and the path holds that state. *)
Theorem C6_init_nonempty_valid_persisted p w :
  match loadable w p with
  | None => wfaults w !! p = None
  | Some m => nonempty (loaded p m) /\ id_rules (loaded p m)
  end ->
  let r := __init__ p w in
  returned r = Ok tt /\
  nonempty (instance_after r) /\
  id_rules (instance_after r) /\
  persisted (instance_after r) (world_after r).
Proof.
  intros H r. subst r. split; [apply init_returns|].
  destruct (loadable w p) as [m|] eqn:E.
  - rewrite (init_load p w m E). unfold instance_after, world_after.
    cbn [fst snd]. destruct H as [Hne Hid]. repeat split; try assumption.
    exists m. split; [|reflexivity]. cbn [data_file loaded].
    unfold loadable in E. destruct (files w !! p) as [[| |[]]|]; try discriminate.
    destruct (bool_decide (p ∈ unreadable w)); congruence.
  - destruct (init_fallback p w E) as [out ->].
    unfold instance_after at 1 2 3. unfold world_after at 1. cbn [fst snd].
    split; [apply seeded_nonempty|]. split; [apply seeded_id_rules|].
    apply persisted_after_save. now rewrite seeded_data_file.
Qed.

Lemma C6_witness :
  wfaults empty_world !! "drinks.json" = None /\
  let r := __init__ "drinks.json" empty_world in
  returned r = Ok tt /\
  nonempty (instance_after r) /\
  id_rules (instance_after r) /\
  persisted (instance_after r) (world_after r).
Proof.
  split; [reflexivity|].
  exact (C6_init_nonempty_valid_persisted "drinks.json" empty_world eq_refl).
Defined.

(** C7 (as stated, it fails): two absent paths, two different seeds. *)
Lemma C7_counterexample :
  (files empty_world !! "drinks.json" = None /\
   files empty_world !! "test_drinks.json" = None) /\
  instance_after (__init__ "drinks.json" empty_world) =
    Build "drinks.json" (VList [espresso; latte; cappuccino; americano]) (VInt 5) /\
  instance_after (__init__ "test_drinks.json" empty_world) =
    Build "test_drinks.json" (VList [test_espresso; test_latte]) (VInt 3).
Proof. repeat split; reflexivity. Qed.

(** C7 (amended): when nothing can be loaded from the path, the state is
    seeded with a fixed data set chosen by the name of the path alone: two
    test drinks and counter 3 when the path starts with "test_", the four
    drinks of the menu and counter 5 otherwise; either way the ids are 1..k
    and the counter is k+1.  The seed is written at once, and the path
    holds it when the write succeeds.  Constructing again for the same path,
    in any world where nothing can be loaded from it, gives the same
    state. *)
Theorem C7_seed_chosen_by_test_prefix p w :
  loadable w p = None ->
  let r := __init__ p w in
  returned r = Ok tt /\
  instance_after r =
    (if Py.startswith p "test_"
     then Build p (VList [test_espresso; test_latte]) (VInt 3)
     else Build p (VList [espresso; latte; cappuccino; americano]) (VInt 5)) /\
  (exists l, drinks (instance_after r) = VList l /\
             record_id <$> l = Some <$> seqZ 1 (Z.of_nat (length l)) /\
             next_id (instance_after r) = VInt (Z.of_nat (length l) + 1)) /\
  (wfaults w !! p = None -> persisted (instance_after r) (world_after r)) /\
  (forall w2, loadable w2 p = None ->
              instance_after (__init__ p w2) = instance_after r).
Proof.
  intros H r. subst r. split; [apply init_returns|].
  assert (Hs : forall w', loadable w' p = None ->
                          instance_after (__init__ p w') = seeded p).
  { intros w' H'. now destruct (init_fallback p w' H') as [out ->]. }
  rewrite (Hs w H). split; [apply seeded_eq|]. split; [|split].
  - rewrite seeded_eq. destruct (Py.startswith p "test_"); cbn [drinks next_id].
    + exists [test_espresso; test_latte]. repeat split.
    + exists [espresso; latte; cappuccino; americano]. repeat split.
  - intros Hw. destruct (init_fallback p w H) as [out ->].
    unfold world_after at 1. cbn [fst snd].
    apply persisted_after_save. now rewrite seeded_data_file.
  - intros w2 H2. apply Hs, H2.
Qed.

Lemma C7_witness :
  loadable empty_world "test_drinks.json" = None /\
  let r := __init__ "test_drinks.json" empty_world in
  returned r = Ok tt /\
  instance_after r =
    Build "test_drinks.json" (VList [test_espresso; test_latte]) (VInt 3) /\
  (exists l, drinks (instance_after r) = VList l /\
             record_id <$> l = Some <$> seqZ 1 (Z.of_nat (length l)) /\
             next_id (instance_after r) = VInt (Z.of_nat (length l) + 1)) /\
  (wfaults empty_world !! "test_drinks.json" = None ->
   persisted (instance_after r) (world_after r)) /\
  (forall w2, loadable w2 "test_drinks.json" = None ->
              instance_after (__init__ "test_drinks.json" w2) = instance_after r).
Proof.
  split; [reflexivity|].
  exact (C7_seed_chosen_by_test_prefix "test_drinks.json" empty_world eq_refl).
Defined.

(** ** The counter and the ids *)

Lemma add_drink_keeps_counter_above o drink w :
  counter_above_ids o ->
  counter_above_ids (instance_after (add_drink drink (o, w))) /\
  exists l n, drinks o = VList l /\
              returned (add_drink drink (o, w)) = Ok (new_record n drink) /\
              Forall (fun d => record_id d <> Some n) l.
Proof.
  intros (l & n & Hl & Hn & Hids). split.
  - rewrite (add_drink_grows drink o w l n Hl Hn).
    exists (l ++ [new_record n drink]), (n + 1). repeat split.
    apply Forall_app. split.
    + eapply Forall_impl; [exact Hids|]. intros d (i & Hi & Hlt).
      exists i. split; [assumption|lia].
    + constructor; [|constructor]. exists n. split; [apply new_record_id|lia].
  - exists l, n. split; [assumption|]. split.
    + now rewrite (add_drink_run drink o w l n Hl Hn).
    + eapply Forall_impl; [exact Hids|]. intros d (i & Hi & Hlt) Heq.
      rewrite Hi in Heq. injection Heq as ->. lia.
Qed.

Lemma later_keeps_counter_above o0 o :
  counter_above_ids o0 -> later o0 o -> counter_above_ids o.
Proof.
  intros H0. induction 1 as [|o drink w _ IH]; [assumption|].
  now apply add_drink_keeps_counter_above.
Qed.

(** C4 (as stated, it fails): the constructor loads a document whose
    counter is 1 and whose record has id 5; the state is reachable and its
    counter is not above its ids. *)
Lemma C4_counterexample :
  let o := instance_after (__init__ "drinks.json"
             (world_with "drinks.json" (Json (VDict stale_counter_document)))) in
  reachable o /\
  next_id o = VInt 1 /\
  drinks o = VList [new_record 5 mocha] /\
  record_id (new_record 5 mocha) = Some 5 /\
  ~ counter_above_ids o.
Proof.
  cbv zeta. split; [apply reachable_init|]. repeat split.
  intros (l & n & Hl & Hn & Hids).
  change (VInt 1 = VInt n) in Hn. change (VList [new_record 5 mocha] = VList l) in Hl.
  injection Hn as <-. injection Hl as <-.
  apply Forall_cons in Hids as [(i & Hi & Hlt) _].
  rewrite new_record_id in Hi. injection Hi as <-. lia.
Qed.

(** C4 (amended): when the constructor seeded the default data, or loaded
    a document whose counter is an integer above the integer ids of its
    records, then in every state that later [add_drink] calls lead to the
    counter is an integer strictly above every id among the records; each
    [add_drink] keeps it so, and the id it assigns is the id of no record
    already in the store. *)
Theorem C4_counter_stays_above_ids p w o :
  loadable w p = None \/ counter_above_ids (instance_after (__init__ p w)) ->
  later (instance_after (__init__ p w)) o ->
  counter_above_ids o /\
  forall drink w',
    counter_above_ids (instance_after (add_drink drink (o, w'))) /\
    exists l n, drinks o = VList l /\
                returned (add_drink drink (o, w')) = Ok (new_record n drink) /\
                Forall (fun d => record_id d <> Some n) l.
Proof.
  intros H Hlater.
  assert (H0 : counter_above_ids (instance_after (__init__ p w))).
  { destruct H as [H|H]; [|exact H].
    destruct (init_fallback p w H) as [out ->]. unfold instance_after.
    cbn [fst snd]. apply id_rules_counter_above_ids, seeded_id_rules. }
  assert (Ho : counter_above_ids o) by now apply (later_keeps_counter_above _ _ H0).
  split; [exact Ho|]. intros drink w'.
  now apply add_drink_keeps_counter_above.
Qed.

Lemma C4_witness :
  (loadable empty_world "drinks.json" = None \/
   counter_above_ids (instance_after (__init__ "drinks.json" empty_world))) /\
  later (instance_after (__init__ "drinks.json" empty_world))
        (instance_after (add_drink mocha
           (instance_after (__init__ "drinks.json" empty_world), empty_world))) /\
  counter_above_ids
    (instance_after (add_drink mocha
       (instance_after (__init__ "drinks.json" empty_world), empty_world))).
Proof.
  assert (H : loadable empty_world "drinks.json" = None \/
              counter_above_ids (instance_after (__init__ "drinks.json" empty_world)))
    by (left; reflexivity).
  assert (L : later (instance_after (__init__ "drinks.json" empty_world))
        (instance_after (add_drink mocha
           (instance_after (__init__ "drinks.json" empty_world), empty_world))))
    by (apply later_add, later_now).
  split; [exact H|]. split; [exact L|].
  exact (proj1 (C4_counter_stays_above_ids "drinks.json" empty_world _ H L)).
Defined.

(** ** Validation of the name *)

(** The function the source defines for the name does what its name says:
    it raises when nothing is left of the string once trimmed, and returns
    the trimmed string otherwise. *)
Lemma name_must_not_be_empty_spec v :
  DrinkBase.name_must_not_be_empty v =
  match Py.strip v with
  | EmptyString => DrinkBase.RaiseValueError "Name cannot be empty"
  | r => DrinkBase.Return r
  end.
Proof.
  unfold DrinkBase.name_must_not_be_empty. destruct v as [|c v]; [reflexivity|].
  cbn [Py.not_str orb]. now destruct (Py.strip (String c v)).
Qed.

(** Whitespace is Unicode's: a no-break space (U+00A0) alone is a blank
    name, and an em space (U+2003) after a name is trimmed. *)
Example name_of_no_break_space :
  DrinkBase.name_must_not_be_empty (Py.bytes [194; 160]%N) =
    DrinkBase.RaiseValueError "Name cannot be empty" /\
  DrinkBase.name_must_not_be_empty (Py.bytes [194; 160; 77; 226; 128; 131]%N) =
    DrinkBase.Return "M".
Proof. split; reflexivity. Qed.

(** Validation itself only applies [min_length=1] to the name: a name of
    one character or more is accepted as it is. *)
Lemma validate_name_keeps v :
  v <> EmptyString -> DrinkBase.validate_name v = inl v.
Proof. intros H. now destruct v. Qed.

Lemma validate_name_empty :
  DrinkBase.validate_name EmptyString = inr (TooShort 1).
Proof. reflexivity. Qed.

(** The empty name is rejected with an error on the field [name], whatever
    the other fields are. *)
Lemma empty_name_rejected sz pr :
  exists errs, DrinkBase.model_validate (DrinkBase.Build EmptyString sz pr) =
               inr ((Fname, TooShort 1) :: errs).
Proof.
  unfold DrinkBase.model_validate. cbn [DrinkBase.name DrinkBase.size DrinkBase.price].
  rewrite validate_name_empty. cbn [DrinkBase.errors_of app]. eauto.
Qed.

(** C2 (the code departs from it): a name of one space, and a name with
    spaces around it, pass model validation untouched, although
    [name_must_not_be_empty] raises on the first and trims the second: the
    function is never registered as a validator. *)
Lemma C2_blank_name_is_accepted :
  DrinkBase.model_validate (DrinkBase.Build " " "M" 3.0) =
    inl (DrinkBase.Build " " "M" 3.0) /\
  DrinkBase.model_validate (DrinkBase.Build " Latte " "M" 3.5) =
    inl (DrinkBase.Build " Latte " "M" 3.5) /\
  DrinkBase.name_must_not_be_empty " " =
    DrinkBase.RaiseValueError "Name cannot be empty" /\
  DrinkBase.name_must_not_be_empty " Latte " = DrinkBase.Return "Latte" /\
  DrinkBase.registered_name = [].
Proof. repeat split; reflexivity. Qed.

(** ** Further properties: validation *)

Lemma positive_not_le_zero (v : float) :
  (0 <? v)%float = true -> (v <=? 0)%float = false.
Proof.
  rewrite ltb_spec, leb_spec. unfold SFltb, SFleb.
  replace (Prim2SF 0) with (S754_zero false) by reflexivity.
  destruct (Prim2SF v) as [s|s| |s m e]; simpl; try destruct s; simpl; congruence.
Qed.

Lemma validate_name_spec v :
  DrinkBase.validate_name v =
  match v with
  | EmptyString => inr (TooShort 1)
  | _ => inl v
  end.
Proof. now destruct v. Qed.

Lemma size_allowed_elem v : size_allowed v <-> v ∈ ["S"; "M"; "L"].
Proof.
  unfold size_allowed. rewrite !elem_of_cons, elem_of_nil. tauto.
Qed.

Lemma validate_size_spec v :
  DrinkBase.validate_size v =
  if bool_decide (v ∈ ["S"; "M"; "L"])
  then inl v
  else inr (ValueErr "Size must be S, M, or L").
Proof.
  unfold DrinkBase.validate_size, DrinkBase.registered_size.
  cbn [DrinkBase.run_validators]. unfold DrinkBase.size_must_be_valid.
  now destruct (bool_decide (v ∈ ["S"; "M"; "L"])).
Qed.

(** After [gt=0] passed, [price_must_be_positive] has nothing left to
    refuse. *)
Lemma validate_price_spec v :
  DrinkBase.validate_price v =
  if (0 <? v)%float then inl v else inr (NotGreaterThan 0).
Proof.
  unfold DrinkBase.validate_price, DrinkBase.registered_price.
  destruct (0 <? v)%float eqn:E; [|reflexivity].
  cbn [DrinkBase.run_validators]. unfold DrinkBase.price_must_be_positive.
  now rewrite (positive_not_le_zero v E).
Qed.

Ltac validate_cases raw :=
  unfold DrinkBase.model_validate;
  destruct raw as [n s p];
  cbn [DrinkBase.name DrinkBase.size DrinkBase.price];
  rewrite validate_name_spec, validate_size_spec, validate_price_spec;
  pose proof (size_allowed_elem s);
  destruct n as [|c n];
  destruct (bool_decide (s ∈ ["S"; "M"; "L"])) eqn:Es;
  [ apply bool_decide_eq_true in Es | apply bool_decide_eq_false in Es
  | apply bool_decide_eq_true in Es | apply bool_decide_eq_false in Es ];
  destruct (0 <? p)%float eqn:Ep;
  cbn [DrinkBase.errors_of app].

(** X1: model validation accepts an input exactly when its name is not the
    empty string, its size is one of S, M, L (as written: no other case, no
    surrounding space) and its price is greater than 0; a NaN price is not.
    What it accepts it returns unchanged: nothing is trimmed or
    normalised. *)
Theorem X1_model_validate_accepts raw d :
  DrinkBase.model_validate raw = inl d <->
  d = raw /\
  DrinkBase.name raw <> EmptyString /\
  size_allowed (DrinkBase.size raw) /\
  (0 <? DrinkBase.price raw)%float = true.
Proof.
  validate_cases raw; split;
    try discriminate;
    try (intros [= <-]; repeat split; (discriminate || tauto));
    try (intros (-> & Hn & Hs & Hp); (reflexivity || congruence || tauto)).
Qed.

(** X2: when model validation rejects an input it reports every field that
    is wrong and no other: the name when it is empty, the size when it is
    not one of S, M, L, the price when it is not greater than 0, in that
    order.  The errors are the three below and no other; the message of
    [price_must_be_positive] is never among them. *)
Theorem X2_model_validate_reports_every_field raw errs :
  DrinkBase.model_validate raw = inr errs ->
  errs <> [] /\
  ((Fname, TooShort 1) ∈ errs <-> DrinkBase.name raw = EmptyString) /\
  ((Fsize, ValueErr "Size must be S, M, or L") ∈ errs <->
     ~ size_allowed (DrinkBase.size raw)) /\
  ((Fprice, NotGreaterThan 0) ∈ errs <-> (0 <? DrinkBase.price raw)%float = false) /\
  sublist errs [(Fname, TooShort 1); (Fsize, ValueErr "Size must be S, M, or L");
                (Fprice, NotGreaterThan 0)].
Proof.
  validate_cases raw; intros [= <-]; (split; [discriminate|]).
  all: rewrite ?elem_of_cons, ?elem_of_nil.
  all: repeat split; try (intros; discriminate); try tauto; try congruence;
    try (intros _; tauto); try (intros; exfalso; intuition congruence);
    try (intros; intuition congruence).
  all: repeat (first [apply sublist_skip | apply sublist_cons | apply sublist_nil]).
Qed.

Lemma X2_witness :
  DrinkBase.model_validate (DrinkBase.Build EmptyString "XL" (-1.0)) =
    inr [(Fname, TooShort 1); (Fsize, ValueErr "Size must be S, M, or L");
         (Fprice, NotGreaterThan 0)] /\
  ((Fprice, NotGreaterThan 0) ∈
     [(Fname, TooShort 1); (Fsize, ValueErr "Size must be S, M, or L");
      (Fprice, NotGreaterThan 0)] <->
   (0 <? -1.0)%float = false).
Proof.
  split; [reflexivity|].
  exact (proj1 (proj2 (proj2 (proj2
    (X2_model_validate_reports_every_field
       (DrinkBase.Build EmptyString "XL" (-1.0)) _ eq_refl))))).
Defined.

(** ** Further properties: the store and its file *)

Lemma add_drink_cases drink o w :
  add_drink drink (o, w) =
  let new_drink := dict [("id", next_id o); ("name", VStr (DrinkBase.name drink));
                         ("size", VStr (DrinkBase.size drink));
                         ("price", VFloat (DrinkBase.price drink))] in
  match Py.append (drinks o) new_drink with
  | Raise e => (Raise e, (o, w))
  | Ok l =>
      match Py.iadd_one (next_id o) with
      | Raise e => (Raise e, (Build (data_file o) l (next_id o), w))
      | Ok n =>
          (Ok new_drink,
           (Build (data_file o) l n,
            world_after (save_data (Build (data_file o) l n, w))))
      end
  end.
Proof.
  cbv zeta. unfold add_drink, mbind, M_bind, self, lift, set_drinks, set_next_id.
  cbn [fst snd drinks next_id data_file].
  destruct (Py.append (drinks o) _) as [l|e]; [|reflexivity].
  cbn [fst snd drinks next_id data_file].
  destruct (Py.iadd_one (next_id o)) as [n|e]; [|reflexivity].
  cbn [fst snd drinks next_id data_file].
  destruct (save_data_returns (Build (data_file o) l n) w) as [w' Hw].
  unfold world_after. rewrite Hw. reflexivity.
Qed.

Lemma save_data_world o w :
  unreadable (world_after (save_data (o, w))) = unreadable w /\
  wfaults (world_after (save_data (o, w))) = wfaults w /\
  stdout (world_after (save_data (o, w))) = stdout w ++ save_lines w (data_file o) /\
  forall p', p' <> data_file o ->
             files (world_after (save_data (o, w))) !! p' = files w !! p'.
Proof.
  unfold save_lines. destruct (wfaults w !! data_file o) as [f|] eqn:E.
  - rewrite (save_data_fault o w f E). unfold world_after. cbn [fst snd].
    destruct f; cbn; repeat split; try reflexivity.
    intros p' Hp. now apply lookup_insert_ne.
  - rewrite (save_data_ok o w E). unfold world_after. cbn.
    repeat split; [now rewrite app_nil_r|].
    intros p' Hp. now apply lookup_insert_ne.
Qed.

Lemma init_world p w :
  world_after (__init__ p w) = w \/
  exists out, world_after (__init__ p w) =
              world_after (save_data (seeded p, with_stdout out w)).
Proof.
  destruct (loadable w p) as [m|] eqn:E.
  - left. now rewrite (init_load p w m E).
  - right. destruct (init_fallback p w E) as [out ->]. now exists out.
Qed.

(** X4: the store writes no file but its own.  Whatever the instance and
    the world, constructing an instance, saving it and adding a drink leave
    every other path as it was. *)
Theorem X4_only_the_data_file_is_written drink o w p' :
  p' <> data_file o ->
  files (world_after (__init__ (data_file o) w)) !! p' = files w !! p' /\
  files (world_after (save_data (o, w))) !! p' = files w !! p' /\
  files (world_after (add_drink drink (o, w))) !! p' = files w !! p'.
Proof.
  intros Hp. split; [|split].
  - destruct (init_world (data_file o) w) as [->|[out ->]]; [reflexivity|].
    destruct (save_data_world (seeded (data_file o)) (with_stdout out w))
      as (_ & _ & _ & H).
    rewrite H by now rewrite seeded_data_file. reflexivity.
  - now apply save_data_world.
  - rewrite add_drink_cases. cbv zeta.
    destruct (Py.append _ _) as [l|e]; [|reflexivity].
    destruct (Py.iadd_one _) as [n|e]; [|reflexivity].
    unfold world_after at 1. cbn [fst snd].
    now apply (save_data_world (Build (data_file o) l n) w).
Qed.

Lemma X4_witness :
  "menu.bak" <> data_file menu /\
  files (world_after (__init__ (data_file menu)
           (world_with "menu.bak" Garbage))) !! "menu.bak" = Some Garbage /\
  files (world_after (save_data (menu, world_with "menu.bak" Garbage)))
    !! "menu.bak" = Some Garbage /\
  files (world_after (add_drink mocha (menu, world_with "menu.bak" Garbage)))
    !! "menu.bak" = Some Garbage.
Proof.
  assert (H : "menu.bak" <> data_file menu) by discriminate.
  split; [exact H|].
  exact (X4_only_the_data_file_is_written mocha menu
           (world_with "menu.bak" Garbage) "menu.bak" H).
Defined.

(** ** Further properties: queries and successive additions *)

Lemma name_is_ok {L : StrLower} q d b : name_is q d = Ok b -> is_Some (record_name d).
Proof.
  unfold name_is, record_name, Py.subscript, Py.lower_method, mbind, result_bind.
  destruct d; try discriminate.
  destruct (m !! "name") as [[]|]; try discriminate. intros _. now eexists.
Qed.

Lemma comprehension_ok {L : StrLower} q l r :
  comprehension (name_is q) l = Ok r -> named l.
Proof.
  revert r. induction l as [|d l IH]; intros r; [constructor|].
  cbn [comprehension]. unfold mbind, result_bind.
  destruct (name_is q d) as [b|e] eqn:Ed; [|discriminate].
  destruct (comprehension (name_is q) l) as [r'|e] eqn:El; [|discriminate].
  intros _. constructor; [now apply (name_is_ok q d b)|now apply (IH r')].
Qed.

(** X5: on a store whose [drinks] is a list, [get_drink_by_name] returns
    exactly when every element is a dict with a [str] under "name"; one
    element without it makes the whole query raise, whatever the query and
    wherever the element is. *)
Theorem X5_get_drink_by_name_returns_iff_named {L : StrLower} o q l :
  drinks o = VList l ->
  (exists r, get_drink_by_name o q = Ok (VList r)) <-> named l.
Proof.
  intros Hl. split.
  - intros [r Hr]. unfold get_drink_by_name in Hr. rewrite Hl in Hr.
    cbn [Py.iterate] in Hr. unfold mbind, result_bind in Hr.
    destruct (comprehension (name_is q) l) as [r'|e] eqn:E; [|discriminate].
    now apply (comprehension_ok q l r').
  - intros Hn. exists (List.filter (matches_name q) l).
    now apply get_drink_by_name_run.
Qed.

Lemma X5_witness :
  drinks (Build "drinks.json" (VList [espresso; dict [("id", VInt 2)]]) (VInt 3)) =
    VList [espresso; dict [("id", VInt 2)]] /\
  ((exists r, get_drink_by_name (L := Py.ascii_text)
      (Build "drinks.json" (VList [espresso; dict [("id", VInt 2)]]) (VInt 3))
      "espresso" = Ok (VList r)) <->
   named [espresso; dict [("id", VInt 2)]]).
Proof.
  split; [reflexivity|].
  exact (X5_get_drink_by_name_returns_iff_named (L := Py.ascii_text)
           (Build "drinks.json" (VList [espresso; dict [("id", VInt 2)]]) (VInt 3))
           "espresso" _ eq_refl).
Defined.

(** X6: the letter case of the query does not matter.  Two queries that
    are equal up to letter case get the same answer from any instance,
    the same list or the same exception. *)
Theorem X6_query_case_is_ignored {L : StrLower} o q1 q2 :
  eq_ignore_case q1 q2 ->
  get_drink_by_name o q1 = get_drink_by_name o q2.
Proof.
  intros H. apply str_lower_ascii_case in H.
  assert (Hn : name_is q1 = name_is q2).
  { unfold name_is. now rewrite H. }
  unfold get_drink_by_name. now rewrite Hn.
Qed.

Lemma X6_witness :
  eq_ignore_case "LATTE" "latte" /\
  get_drink_by_name (L := Py.ascii_text) menu "LATTE" =
    get_drink_by_name (L := Py.ascii_text) menu "latte".
Proof.
  assert (H : eq_ignore_case "LATTE" "latte")
    by (apply lower_eq_ignore_case; reflexivity).
  split; [exact H|].
  exact (X6_query_case_is_ignored (L := Py.ascii_text) menu "LATTE" "latte" H).
Defined.

Lemma filter_matches_app {L : StrLower} q l1 l2 :
  List.filter (matches_name q) (l1 ++ l2) =
  List.filter (matches_name q) l1 ++ List.filter (matches_name q) l2.
Proof. apply List.filter_app. Qed.

(** X7: a drink that was added is found.  On a store of named records,
    after [add_drink] a query whose lower-case form is that of the new
    name, as is any query equal to the name up to the case of [A]..[Z],
    returns what it returned before followed by the new record, in last
    place; a query with another lower-case form returns what it returned
    before. *)
Theorem X7_added_drink_is_found {L : StrLower} drink o w l n q :
  drinks o = VList l -> next_id o = VInt n -> named l ->
  exists r,
    get_drink_by_name o q = Ok (VList r) /\
    (str_lower (DrinkBase.name drink) = str_lower q ->
     get_drink_by_name (instance_after (add_drink drink (o, w))) q =
       Ok (VList (r ++ [new_record n drink]))) /\
    (eq_ignore_case (DrinkBase.name drink) q ->
     get_drink_by_name (instance_after (add_drink drink (o, w))) q =
       Ok (VList (r ++ [new_record n drink]))) /\
    (str_lower (DrinkBase.name drink) <> str_lower q ->
     get_drink_by_name (instance_after (add_drink drink (o, w))) q =
       Ok (VList r)).
Proof.
  intros Hl Hn Hnamed. exists (List.filter (matches_name q) l).
  split; [now apply get_drink_by_name_run|].
  rewrite (add_drink_grows drink o w l n Hl Hn).
  assert (Hrun : get_drink_by_name
            (Build (data_file o) (VList (l ++ [new_record n drink])) (VInt (n + 1))) q =
          Ok (VList (List.filter (matches_name q) l ++
                     List.filter (matches_name q) [new_record n drink]))).
  { rewrite <- filter_matches_app. apply get_drink_by_name_run; [reflexivity|].
    apply named_app; [assumption|apply named_new_record]. }
  rewrite Hrun. cbn [List.filter].
  assert (Hm : matches_name q (new_record n drink) = true <->
               str_lower (DrinkBase.name drink) = str_lower q).
  { rewrite matches_name_has_name. unfold has_name. rewrite new_record_name. split.
    - now intros (s & [= <-] & Heq).
    - intros Heq. now exists (DrinkBase.name drink). }
  destruct (matches_name q (new_record n drink)) eqn:E.
  - split; [reflexivity|]. split; [reflexivity|].
    intros Hne. exfalso. apply Hne. now apply Hm.
  - rewrite app_nil_r. split; [|split; [|reflexivity]].
    + intros Heq. apply Hm in Heq. discriminate.
    + intros Heq. apply str_lower_ascii_case, Hm in Heq. discriminate.
Qed.

Lemma X7_witness :
  (drinks menu = VList [espresso; latte; cappuccino; americano] /\
   next_id menu = VInt 5 /\ named [espresso; latte; cappuccino; americano]) /\
  exists r,
    get_drink_by_name (L := Py.ascii_text) menu "mocha" = Ok (VList r) /\
    (Py.ascii_lower (DrinkBase.name mocha) = Py.ascii_lower "mocha" ->
     get_drink_by_name (L := Py.ascii_text)
       (instance_after (add_drink mocha (menu, empty_world))) "mocha" =
       Ok (VList (r ++ [new_record 5 mocha]))) /\
    (eq_ignore_case (DrinkBase.name mocha) "mocha" ->
     get_drink_by_name (L := Py.ascii_text)
       (instance_after (add_drink mocha (menu, empty_world))) "mocha" =
       Ok (VList (r ++ [new_record 5 mocha]))) /\
    (Py.ascii_lower (DrinkBase.name mocha) <> Py.ascii_lower "mocha" ->
     get_drink_by_name (L := Py.ascii_text)
       (instance_after (add_drink mocha (menu, empty_world))) "mocha" =
       Ok (VList r)).
Proof.
  split; [repeat split; try reflexivity; exact menu_named|].
  exact (X7_added_drink_is_found (L := Py.ascii_text) mocha menu empty_world
           [espresso; latte; cappuccino; americano] 5 "mocha"
           eq_refl eq_refl menu_named).
Defined.

Lemma records_from_ids n ds :
  record_id <$> records_from n ds = Some <$> seqZ n (Z.of_nat (length ds)).
Proof.
  revert n. induction ds as [|d ds IH]; intros n; [reflexivity|].
  cbn [records_from length fmap list_fmap]. rewrite Nat2Z.inj_succ.
  rewrite seqZ_cons by lia. cbn [fmap list_fmap].
  rewrite new_record_id. f_equal.
  replace (Z.pred (Z.succ (Z.of_nat (length ds)))) with (Z.of_nat (length ds)) by lia.
  apply IH.
Qed.

(** X8: successive additions number the records consecutively.  From a
    store with counter [n], adding k drinks one after the other returns
    the k records with ids n, n+1, ..., n+k-1, leaves them at the end of
    the list in the order of the calls, behind the records that were there,
    and leaves the counter at n+k; whether the writes succeed plays no
    part. *)
Theorem X8_successive_additions ds o w l n :
  drinks o = VList l -> next_id o = VInt n ->
  returned (add_drinks ds (o, w)) = Ok (records_from n ds) /\
  instance_after (add_drinks ds (o, w)) =
    Build (data_file o) (VList (l ++ records_from n ds))
          (VInt (n + Z.of_nat (length ds))) /\
  record_id <$> records_from n ds = Some <$> seqZ n (Z.of_nat (length ds)).
Proof.
  intros Hl Hn. split; [|split; [|apply records_from_ids]].
  - revert o w l n Hl Hn. induction ds as [|d ds IH]; intros o w l n Hl Hn.
    + reflexivity.
    + cbn [add_drinks records_from]. unfold mbind, M_bind.
      rewrite (add_drink_run d o w l n Hl Hn).
      specialize (IH (Build (data_file o) (VList (l ++ [new_record n d])) (VInt (n + 1)))
                     (world_after (save_data
                        (Build (data_file o) (VList (l ++ [new_record n d])) (VInt (n + 1)), w)))
                     _ _ eq_refl eq_refl).
      unfold returned in *. destruct (add_drinks ds _) as [[rs|e] s]; cbn in *;
        congruence.
  - revert o w l n Hl Hn. induction ds as [|d ds IH]; intros o w l n Hl Hn.
    + cbn. rewrite app_nil_r, Z.add_0_r. destruct o; cbn in *. now subst.
    + cbn [add_drinks records_from length]. unfold mbind, M_bind.
      rewrite (add_drink_run d o w l n Hl Hn).
      pose proof (IH (Build (data_file o) (VList (l ++ [new_record n d])) (VInt (n + 1)))
                     (world_after (save_data
                        (Build (data_file o) (VList (l ++ [new_record n d])) (VInt (n + 1)), w)))
                     _ _ eq_refl eq_refl) as H.
      unfold instance_after in *.
      destruct (add_drinks ds _) as [[rs|e] s]; cbn in *; rewrite H;
        rewrite <- app_assoc; cbn [app]; do 2 f_equal; lia.
Qed.

Lemma X8_witness :
  (drinks menu = VList [espresso; latte; cappuccino; americano] /\
   next_id menu = VInt 5) /\
  returned (add_drinks [mocha; mocha] (menu, readonly_world "drinks.json")) =
    Ok [new_record 5 mocha; new_record 6 mocha] /\
  instance_after (add_drinks [mocha; mocha] (menu, readonly_world "drinks.json")) =
    Build "drinks.json"
      (VList [espresso; latte; cappuccino; americano;
              new_record 5 mocha; new_record 6 mocha]) (VInt 7) /\
  record_id <$> [new_record 5 mocha; new_record 6 mocha] = [Some 5; Some 6].
Proof.
  split; [split; reflexivity|].
  exact (X8_successive_additions [mocha; mocha] menu (readonly_world "drinks.json")
           [espresso; latte; cappuccino; americano] 5 eq_refl eq_refl).
Defined.

(** ** Further properties: restarts *)

Lemma init_fallback_lines p w :
  loadable w p = None ->
  __init__ p w =
  (Ok tt, (seeded p,
           world_after (save_data (seeded p, with_stdout (stdout w ++ load_lines w p) w)))).
Proof.
  intros H.
  assert (Hh : forall out,
    _init_default_data (Build p (VList []) (VInt 1), with_stdout out w) =
    (Ok tt, (seeded p, world_after (save_data (seeded p, with_stdout out w)))))
    by (intros out; apply init_default_data_run).
  assert (H0 : with_stdout (stdout w) w = w) by now destruct w.
  unfold loadable in H. unfold load_lines.
  unfold __init__, load_data, mbind, M_bind, self, os_path_exists,
    try_except, json_load, lift, print.
  cbn in *.
  repeat (case_match; cbn in *; simplify_eq); try apply Hh.
  all: try (unfold Py.get in *; simplify_eq; apply Hh).
  rewrite app_nil_r, H0. apply init_default_data_run.
Qed.

Lemma init_instance p w :
  instance_after (__init__ p w) =
  match loadable w p with
  | Some m => loaded p m
  | None => seeded p
  end.
Proof.
  destruct (loadable w p) as [m|] eqn:E.
  - now rewrite (init_load p w m E).
  - now rewrite (init_fallback_lines p w E).
Qed.

Lemma init_data_file p w : data_file (instance_after (__init__ p w)) = p.
Proof.
  rewrite init_instance. destruct (loadable w p); [reflexivity|apply seeded_data_file].
Qed.

Lemma load_after_save o w :
  wfaults w !! data_file o = None ->
  data_file o ∉ unreadable w ->
  __init__ (data_file o) (world_after (save_data (o, w))) =
  (Ok tt, (o, world_after (save_data (o, w)))).
Proof.
  intros Hw Hr. rewrite (save_data_ok o w Hw). unfold world_after. cbn [fst snd].
  set (w' := with_files _ w).
  assert (Hload : loadable w' (data_file o) =
                  Some (list_to_map [("drinks", drinks o); ("next_id", next_id o)])).
  { unfold loadable, w'. cbn [files with_files unreadable].
    rewrite lookup_insert_eq. unfold document, dict.
    now rewrite bool_decide_false. }
  rewrite (init_load _ _ _ Hload). now destruct o.
Qed.

(** X9: an addition that reached the disk survives a restart.  When the
    write succeeds and the file can be read back, an instance constructed
    afterwards from the same path is the instance [add_drink] left: the
    same records in the same order, the new one last, and the same
    counter. *)
Theorem X9_added_drink_survives_restart drink o w l n :
  drinks o = VList l -> next_id o = VInt n ->
  wfaults w !! data_file o = None ->
  data_file o ∉ unreadable w ->
  instance_after (__init__ (data_file o) (world_after (add_drink drink (o, w)))) =
    instance_after (add_drink drink (o, w)) /\
  instance_after (add_drink drink (o, w)) =
    Build (data_file o) (VList (l ++ [new_record n drink])) (VInt (n + 1)).
Proof.
  intros Hl Hn Hw Hr. split; [|now apply add_drink_grows].
  rewrite (add_drink_run drink o w l n Hl Hn).
  unfold instance_after at 2, world_after at 1. cbn [fst snd].
  set (o' := Build _ _ _).
  change (data_file o) with (data_file o').
  now rewrite (load_after_save o' w Hw Hr).
Qed.

Lemma X9_witness :
  (drinks menu = VList [espresso; latte; cappuccino; americano] /\
   next_id menu = VInt 5 /\
   wfaults empty_world !! data_file menu = None /\
   data_file menu ∉ unreadable empty_world) /\
  instance_after (__init__ (data_file menu)
    (world_after (add_drink mocha (menu, empty_world)))) =
    instance_after (add_drink mocha (menu, empty_world)) /\
  instance_after (add_drink mocha (menu, empty_world)) =
    Build "drinks.json"
      (VList [espresso; latte; cappuccino; americano; new_record 5 mocha]) (VInt 6).
Proof.
  assert (Hr : data_file menu ∉ unreadable empty_world) by apply not_elem_of_empty.
  split; [repeat split; try reflexivity; exact Hr|].
  exact (X9_added_drink_survives_restart mocha menu empty_world
           [espresso; latte; cappuccino; americano] 5 eq_refl eq_refl eq_refl Hr).
Defined.

Lemma save_data_open_fails o w :
  wfaults w !! data_file o = Some OpenFails ->
  files (world_after (save_data (o, w))) = files w /\
  unreadable (world_after (save_data (o, w))) = unreadable w /\
  wfaults (world_after (save_data (o, w))) = wfaults w.
Proof. intros H. rewrite (save_data_fault o w _ H). repeat split. Qed.

Lemma loadable_same_disk w1 w2 p :
  files w1 = files w2 -> unreadable w1 = unreadable w2 ->
  loadable w1 p = loadable w2 p.
Proof. unfold loadable. now intros -> ->. Qed.

(** X10: an addition whose write failed does not survive a restart, and a
    write that broke off takes the stored menu with it.  After [add_drink]
    with a failing write, an instance constructed from the same path is, if
    the file could not be opened, the instance a construction would have
    given before the call, without the new record; if the dump broke off,
    it is the seeded instance, whatever the file held before. *)
Theorem X10_failed_write_at_restart drink o w f l n :
  drinks o = VList l -> next_id o = VInt n ->
  wfaults w !! data_file o = Some f ->
  instance_after (__init__ (data_file o) (world_after (add_drink drink (o, w)))) =
  match f with
  | OpenFails => instance_after (__init__ (data_file o) w)
  | DumpFails => seeded (data_file o)
  end.
Proof.
  intros Hl Hn Hf. rewrite (add_drink_run drink o w l n Hl Hn).
  unfold world_after at 1. cbn [fst snd].
  set (o' := Build _ _ _). rewrite !init_instance.
  assert (Hf' : wfaults w !! data_file o' = Some f) by exact Hf.
  destruct f.
  - destruct (save_data_open_fails o' w Hf') as (H1 & H2 & _).
    now rewrite (loadable_same_disk _ w (data_file o) H1 H2).
  - rewrite (save_data_fault o' w _ Hf'). unfold world_after, loadable.
    cbn [fst snd files with_files with_stdout data_file o'].
    now rewrite lookup_insert_eq.
Qed.

Lemma X10_witness :
  (drinks menu = VList [espresso; latte; cappuccino; americano] /\
   next_id menu = VInt 5 /\
   wfaults (frozen_world "drinks.json") !! data_file menu = Some OpenFails) /\
  instance_after (__init__ (data_file menu)
    (world_after (add_drink mocha (menu, frozen_world "drinks.json")))) = menu.
Proof.
  split; [repeat split; reflexivity|].
  exact (X10_failed_write_at_restart mocha menu (frozen_world "drinks.json")
           OpenFails [espresso; latte; cappuccino; americano] 5
           eq_refl eq_refl eq_refl).
Defined.

(** X11: what the constructor prints.  With a document that loads it
    prints nothing.  With no file at the path it prints no load error.
    With a file that is there and cannot be loaded it prints one load
    error, carrying the exception that stopped the load: an [OSError] when
    the file cannot be opened; otherwise what [json.load] raised, a
    [JSONDecodeError] for text that is not JSON or whatever else reading the
    file raises; an [AttributeError] when the JSON is not an object.  It
    then goes on to seed, which adds one save error when the write
    fails. *)
Theorem X11_constructor_output p w :
  (forall m, loadable w p = Some m ->
             stdout (world_after (__init__ p w)) = stdout w) /\
  (files w !! p = None ->
   stdout (world_after (__init__ p w)) = stdout w ++ save_lines w p) /\
  (forall c, files w !! p = Some c -> loadable w p = None ->
     stdout (world_after (__init__ p w)) =
       stdout w ++
       ErrorLoadingData
         (if bool_decide (p ∈ unreadable w) then OSError
          else match c with
               | Garbage => JSONDecodeError
               | Fails e => e
               | Json _ => AttributeError
               end) :: save_lines w p).
Proof.
  assert (Hout : loadable w p = None ->
                 stdout (world_after (__init__ p w)) =
                 stdout w ++ load_lines w p ++ save_lines w p).
  { intros H. rewrite (init_fallback_lines p w H).
    unfold world_after at 1. cbn [fst snd].
    destruct (save_data_world (seeded p) (with_stdout (stdout w ++ load_lines w p) w))
      as (_ & _ & Hs & _).
    rewrite Hs, seeded_data_file. cbn [stdout with_stdout].
    unfold save_lines. cbn [wfaults with_stdout]. now rewrite app_assoc. }
  split; [|split].
  - intros m H. now rewrite (init_load p w m H).
  - intros H. rewrite Hout by (unfold loadable; now rewrite H).
    unfold load_lines. now rewrite H.
  - intros c H Hl. rewrite (Hout Hl). unfold load_lines. now rewrite H.
Qed.

(** ** Further properties: the path operations *)

Lemma filter_matches_nil {L : StrLower} q l :
  List.filter (matches_name q) l = [] <-> forall d, d ∈ l -> ~ has_name q d.
Proof.
  split.
  - intros H d Hd Hm. apply matches_name_has_name in Hm.
    assert (Hin : In d (List.filter (matches_name q) l))
      by (apply filter_In; split; [now apply list_elem_of_In|exact Hm]).
    now rewrite H in Hin.
  - intros H. apply (selects_none (has_name q) l); [apply filter_selects|exact H].
Qed.

(** X12: on a store of named records, [get_drink] raises the 404 "Drink
    not found" exactly when no record has a name with the lower-case form
    of the name asked for; otherwise it returns the matching records, at
    least one, in stored order.  It never returns an empty list, and it
    never raises the 404 when a record has the name asked for up to the
    case of [A]..[Z]. *)
Theorem X12_get_drink_not_found {L : StrLower} q o l :
  drinks o = VList l -> named l ->
  (App.get_drink q o = App.HTTPException 404 "Drink not found" <->
   forall d, d ∈ l -> ~ has_name q d) /\
  (App.get_drink q o = App.HTTPException 404 "Drink not found" \/
   exists d r, App.get_drink q o = App.Returns (VList (d :: r)) /\
               selects (has_name q) l (d :: r)) /\
  (forall d s, d ∈ l -> record_name d = Some s -> eq_ignore_case s q ->
     exists d' r, App.get_drink q o = App.Returns (VList (d' :: r))).
Proof.
  intros Hl Hn. unfold App.get_drink.
  rewrite (get_drink_by_name_run o q l Hl Hn). cbn [App.truth].
  pose proof (filter_matches_nil q l) as Hnil.
  pose proof (filter_selects q l) as Hsel.
  destruct (List.filter (matches_name q) l) as [|d r]; cbn [negb].
  - split; [|split; [now left|]].
    + split; [intros _; now apply Hnil|reflexivity].
    + intros d s Hd Hs Hq. exfalso.
      apply (proj1 Hnil eq_refl d Hd). exists s. split; [exact Hs|].
      now apply str_lower_ascii_case.
  - split; [|split; [right; now exists d, r|]].
    + split; [discriminate|]. intros H. apply Hnil in H. discriminate.
    + intros d0 s _ _ _. now exists d, r.
Qed.

Lemma X12_witness :
  (drinks menu = VList [espresso; latte; cappuccino; americano] /\
   named [espresso; latte; cappuccino; americano]) /\
  App.get_drink (L := Py.ascii_text) "Cortado" menu =
    App.HTTPException 404 "Drink not found" /\
  (App.get_drink (L := Py.ascii_text) "Cortado" menu =
     App.HTTPException 404 "Drink not found" <->
   forall d, d ∈ [espresso; latte; cappuccino; americano] ->
             ~ has_name (L := Py.ascii_text) "Cortado" d).
Proof.
  split; [split; [reflexivity|exact menu_named]|]. split; [reflexivity|].
  exact (proj1 (X12_get_drink_not_found (L := Py.ascii_text) "Cortado" menu
           [espresso; latte; cappuccino; americano] eq_refl menu_named)).
Defined.

Lemma depends_run {A : Type} (handler : t * world -> App.outcome A * world) w :
  App.depends handler w =
  handler (instance_after (App.get_drink_storage w),
           world_after (App.get_drink_storage w)).
Proof.
  unfold App.depends, App.get_drink_storage, instance_after, world_after.
  pose proof (init_returns "drinks.json" w) as H. unfold returned in H.
  destruct (__init__ "drinks.json" w) as [r [o w']]. cbn in *. now subst r.
Qed.

Lemma init_keeps_faults p w :
  unreadable (world_after (__init__ p w)) = unreadable w /\
  wfaults (world_after (__init__ p w)) = wfaults w.
Proof.
  destruct (init_world p w) as [->|[out ->]]; [now split|].
  destruct (save_data_world (seeded p) (with_stdout out w)) as (H1 & H2 & _).
  now rewrite H1, H2.
Qed.

(** X13: through the application, a drink posted is on the menu of the
    next request.  Each request constructs its own store from
    "drinks.json"; when that path can be written and read, and the store
    the request constructs holds a list and an integer counter [n], the
    POST returns the record with id [n] and a GET of the menu served
    next returns the list with that record at its end. *)
Theorem X13_post_then_get drink w l n :
  drinks (instance_after (App.get_drink_storage w)) = VList l ->
  next_id (instance_after (App.get_drink_storage w)) = VInt n ->
  wfaults w !! "drinks.json" = None ->
  "drinks.json" ∉ unreadable w ->
  fst (App.serve_get_menu w) = App.Returns (VList l) /\
  fst (App.serve_add_drink drink w) = App.Returns (new_record n drink) /\
  fst (App.serve_get_menu (snd (App.serve_add_drink drink w))) =
    App.Returns (VList (l ++ [new_record n drink])).
Proof.
  intros Hl Hn Hw Hr. unfold App.serve_get_menu, App.serve_add_drink.
  rewrite !depends_run. cbn [fst snd]. unfold App.get_menu, get_all_drinks.
  split; [now rewrite Hl|].
  set (o := instance_after (App.get_drink_storage w)) in *.
  set (w0 := world_after (App.get_drink_storage w)).
  assert (Hd : data_file o = "drinks.json") by apply init_data_file.
  destruct (init_keeps_faults "drinks.json" w) as [Hu Hf].
  fold (App.get_drink_storage w) in Hu, Hf. fold w0 in Hu, Hf.
  unfold App.add_drink. rewrite (add_drink_run drink o w0 l n Hl Hn).
  cbn [fst snd]. split; [reflexivity|].
  rewrite Hd. set (o' := Build "drinks.json" _ _).
  unfold App.get_drink_storage.
  change "drinks.json" with (data_file o') at 1.
  rewrite (load_after_save o' w0); [reflexivity| |].
  - cbn [data_file o']. now rewrite Hf.
  - cbn [data_file o']. now rewrite Hu.
Qed.

Lemma X13_witness :
  (drinks (instance_after (App.get_drink_storage empty_world)) =
     VList [espresso; latte; cappuccino; americano] /\
   next_id (instance_after (App.get_drink_storage empty_world)) = VInt 5 /\
   wfaults empty_world !! "drinks.json" = None /\
   "drinks.json" ∉ unreadable empty_world) /\
  fst (App.serve_get_menu empty_world) =
    App.Returns (VList [espresso; latte; cappuccino; americano]) /\
  fst (App.serve_add_drink mocha empty_world) = App.Returns (new_record 5 mocha) /\
  fst (App.serve_get_menu (snd (App.serve_add_drink mocha empty_world))) =
    App.Returns (VList [espresso; latte; cappuccino; americano; new_record 5 mocha]).
Proof.
  assert (Hr : "drinks.json" ∉ unreadable empty_world) by apply not_elem_of_empty.
  split; [repeat split; try reflexivity; exact Hr|].
  exact (X13_post_then_get mocha empty_world
           [espresso; latte; cappuccino; americano] 5 eq_refl eq_refl eq_refl Hr).
Defined.

Lemma add_drink_returned_by_instance drink o w1 w2 :
  returned (add_drink drink (o, w1)) = returned (add_drink drink (o, w2)).
Proof.
  rewrite !add_drink_cases. cbv zeta.
  destruct (Py.append _ _); [|reflexivity].
  destruct (Py.iadd_one _); reflexivity.
Qed.

Lemma add_drink_open_fails drink o w :
  wfaults w !! data_file o = Some OpenFails ->
  files (world_after (add_drink drink (o, w))) = files w /\
  unreadable (world_after (add_drink drink (o, w))) = unreadable w.
Proof.
  intros H. rewrite add_drink_cases. cbv zeta.
  destruct (Py.append _ _) as [l|e]; [|now split].
  destruct (Py.iadd_one _) as [n|e]; [|now split].
  unfold world_after at 1 3. cbn [fst snd].
  destruct (save_data_open_fails (Build (data_file o) l n) w H) as (H1 & H2 & _).
  now split.
Qed.

Lemma init_open_fails p w :
  wfaults w !! p = Some OpenFails ->
  files (world_after (__init__ p w)) = files w.
Proof.
  intros H. destruct (init_world p w) as [->|[out ->]]; [reflexivity|].
  assert (H' : wfaults (with_stdout out w) !! data_file (seeded p) = Some OpenFails)
    by now rewrite seeded_data_file.
  now destruct (save_data_open_fails (seeded p) (with_stdout out w) H') as (-> & _).
Qed.

(** X14: through the application, a drink posted while "drinks.json"
    cannot be opened for writing is forgotten.  The POST itself returns a
    record, but every request served next (the menu, a lookup by name,
    another POST) answers as if it had not happened; in particular the
    next POST hands out the same id again. *)
Theorem X14_post_is_forgotten_when_open_fails {L : StrLower} drink w :
  wfaults w !! "drinks.json" = Some OpenFails ->
  let w1 := snd (App.serve_add_drink drink w) in
  fst (App.serve_get_menu w1) = fst (App.serve_get_menu w) /\
  (forall q, fst (App.serve_get_drink q w1) = fst (App.serve_get_drink q w)) /\
  (forall d, fst (App.serve_add_drink d w1) = fst (App.serve_add_drink d w)).
Proof.
  intros Hw w1.
  assert (Hi : instance_after (App.get_drink_storage w1) =
               instance_after (App.get_drink_storage w)).
  { subst w1. unfold App.serve_add_drink. rewrite depends_run.
    set (o := instance_after (App.get_drink_storage w)).
    set (w0 := world_after (App.get_drink_storage w)).
    assert (Hd : data_file o = "drinks.json") by apply init_data_file.
    destruct (init_keeps_faults "drinks.json" w) as [Hu Hf].
    pose proof (init_open_fails "drinks.json" w Hw) as Hfiles.
    fold (App.get_drink_storage w) in Hu, Hf, Hfiles. fold w0 in Hu, Hf, Hfiles.
    assert (Hw0 : wfaults w0 !! data_file o = Some OpenFails)
      by now rewrite Hd, Hf.
    destruct (add_drink_open_fails drink o w0 Hw0) as [Ha Hb].
    unfold App.add_drink.
    assert (Hsnd : snd (match add_drink drink (o, w0) with
                        | (Ok v, s') => (App.Returns v, snd s')
                        | (Raise e, s') => (App.Propagates e, snd s')
                        end) = world_after (add_drink drink (o, w0))).
    { unfold world_after. now destruct (add_drink drink (o, w0)) as [[v|e] s']. }
    rewrite Hsnd. unfold App.get_drink_storage at 1. rewrite init_instance.
    rewrite (loadable_same_disk _ w "drinks.json").
    - subst o. unfold App.get_drink_storage. now rewrite init_instance.
    - now rewrite Ha, Hfiles.
    - now rewrite Hb, Hu. }
  unfold App.serve_get_menu, App.serve_get_drink, App.serve_add_drink.
  split; [|split; [intros q|intros d]]; rewrite !depends_run; cbn [fst snd].
  - now rewrite Hi.
  - now rewrite Hi.
  - rewrite Hi. unfold App.add_drink.
    pose proof (add_drink_returned_by_instance d
                  (instance_after (App.get_drink_storage w))
                  (world_after (App.get_drink_storage w1))
                  (world_after (App.get_drink_storage w))) as H.
    unfold returned in H.
    destruct (add_drink d (_, world_after (App.get_drink_storage w1))) as [[v1|e1] s1];
      destruct (add_drink d (_, world_after (App.get_drink_storage w))) as [[v2|e2] s2];
      cbn in *; congruence.
Qed.

Lemma X14_witness :
  wfaults (readonly_world "drinks.json") !! "drinks.json" = Some OpenFails /\
  fst (App.serve_add_drink mocha (readonly_world "drinks.json")) =
    App.Returns (new_record 5 mocha) /\
  fst (App.serve_add_drink mocha
         (snd (App.serve_add_drink mocha (readonly_world "drinks.json")))) =
    fst (App.serve_add_drink mocha (readonly_world "drinks.json")).
Proof.
  split; [reflexivity|]. split; [reflexivity|].
  exact (proj2 (proj2 (X14_post_is_forgotten_when_open_fails (L := Py.ascii_text) mocha
                         (readonly_world "drinks.json") eq_refl)) mocha).
Defined.

(** ** Further properties: edges of loading and adding *)

(** X15: a member missing from the document gets the default of its
    [get]: no "drinks" gives the empty list, no "next_id" gives the counter
    1.  So after loading a list of drinks that comes without a counter,
    the first [add_drink] hands out the id 1, whatever ids the list
    holds. *)
Theorem X15_missing_members_default p w m :
  loadable w p = Some m ->
  (m !! "drinks" = None -> drinks (instance_after (__init__ p w)) = VList []) /\
  (m !! "next_id" = None -> next_id (instance_after (__init__ p w)) = VInt 1) /\
  (forall l drink w',
     m !! "drinks" = Some (VList l) -> m !! "next_id" = None ->
     returned (add_drink drink (instance_after (__init__ p w), w')) =
       Ok (new_record 1 drink) /\
     drinks (instance_after (add_drink drink (instance_after (__init__ p w), w'))) =
       VList (l ++ [new_record 1 drink])).
Proof.
  intros H. rewrite (init_load p w m H). unfold instance_after at 1 2 3 5.
  cbn [fst snd drinks next_id].
  split; [now intros ->|]. split; [now intros ->|].
  intros l drink w' Hl Hn.
  set (o := Build p _ _).
  assert (Hlo : drinks o = VList l) by (cbn; now rewrite Hl).
  assert (Hno : next_id o = VInt 1) by (cbn; now rewrite Hn).
  rewrite (add_drink_run drink o w' l 1 Hlo Hno). now split.
Qed.

Lemma X15_witness :
  loadable (world_with "drinks.json" (Json (VDict counterless_document))) "drinks.json"
    = Some counterless_document /\
  record_id espresso = Some 1 /\
  returned (add_drink mocha
    (instance_after (__init__ "drinks.json"
       (world_with "drinks.json" (Json (VDict counterless_document)))),
     empty_world)) = Ok (new_record 1 mocha).
Proof.
  split; [reflexivity|]. split; [reflexivity|].
  exact (proj1 (proj2 (proj2 (X15_missing_members_default "drinks.json"
           (world_with "drinks.json" (Json (VDict counterless_document)))
           counterless_document eq_refl)) [espresso] mocha empty_world
           eq_refl eq_refl)).
Defined.

(** X16: how [add_drink] can fail.  It raises only for what the instance
    holds, never for the file: an [AttributeError] when [drinks] is not a
    list, and then nothing has changed; a [TypeError] when [drinks] is a
    list and the counter is not a number, and then the record is already
    appended, with that counter as its id, while the counter is unchanged.
    In both cases nothing is written or printed. *)
Theorem X16_add_drink_failures drink o w e :
  returned (add_drink drink (o, w)) = Raise e ->
  world_after (add_drink drink (o, w)) = w /\
  ((e = AttributeError /\ (forall l, drinks o <> VList l) /\
    instance_after (add_drink drink (o, w)) = o) \/
   (e = TypeError /\ Py.iadd_one (next_id o) = Raise TypeError /\
    exists l, drinks o = VList l /\
      instance_after (add_drink drink (o, w)) =
        Build (data_file o)
          (VList (l ++ [dict [("id", next_id o);
                              ("name", VStr (DrinkBase.name drink));
                              ("size", VStr (DrinkBase.size drink));
                              ("price", VFloat (DrinkBase.price drink))]]))
          (next_id o))).
Proof.
  rewrite add_drink_cases. cbv zeta. unfold returned, world_after, instance_after.
  destruct (drinks o) as [| | | | |l|] eqn:Hd; cbn [Py.append fst snd];
    try (intros [= <-]; split; [reflexivity|]; left;
         split; [reflexivity|]; split; [intros l; discriminate|reflexivity]).
  destruct (next_id o) as [| | | | | |] eqn:Hn; cbn [Py.iadd_one fst snd];
    try discriminate;
    intros [= <-]; (split; [reflexivity|]); right;
    (split; [reflexivity|]); (split; [reflexivity|]); exists l; now split.
Qed.

Lemma X16_witness :
  returned (add_drink mocha (Build "drinks.json" (VList []) VNone, empty_world)) =
    Raise TypeError /\
  world_after (add_drink mocha (Build "drinks.json" (VList []) VNone, empty_world)) =
    empty_world.
Proof.
  split; [reflexivity|].
  exact (proj1 (X16_add_drink_failures mocha
                  (Build "drinks.json" (VList []) VNone) empty_world TypeError
                  eq_refl)).
Defined.

Lemma loaded_document o : loaded (data_file o) (list_to_map
  [("drinks", drinks o); ("next_id", next_id o)]) = o.
Proof. now destruct o. Qed.

(** X17: constructing again changes nothing.  Whatever the path holds and
    whatever goes wrong with it, an instance constructed in the world the
    constructor left behind equals the instance constructed first; so the
    menu served to two requests in a row is the same. *)
Theorem X17_constructing_twice p w :
  instance_after (__init__ p (world_after (__init__ p w))) =
    instance_after (__init__ p w) /\
  fst (App.serve_get_menu (snd (App.serve_get_menu w))) = fst (App.serve_get_menu w).
Proof.
  assert (H : forall p w, instance_after (__init__ p (world_after (__init__ p w))) =
                          instance_after (__init__ p w)).
  { clear. intros p w. destruct (loadable w p) as [m|] eqn:E.
    - rewrite (init_load p w m E). unfold world_after at 1. cbn [fst snd].
      now rewrite (init_load p w m E).
    - rewrite (init_fallback_lines p w E).
      unfold world_after at 1, instance_after at 2. cbn [fst snd].
      set (w0 := with_stdout _ w). rewrite init_instance.
      destruct (wfaults w0 !! data_file (seeded p)) as [f|] eqn:Ef.
      + rewrite (save_data_fault (seeded p) w0 f Ef). unfold world_after, loadable.
        cbn [fst snd]. unfold loadable in E.
        destruct f; subst w0; cbn [files unreadable with_stdout with_files].
        * now rewrite E.
        * now rewrite seeded_data_file, lookup_insert_eq.
      + rewrite (save_data_ok (seeded p) w0 Ef). unfold world_after, loadable.
        subst w0. cbn [fst snd files unreadable with_stdout with_files].
        rewrite seeded_data_file, lookup_insert_eq. unfold document, dict.
        destruct (bool_decide (p ∈ unreadable w)); [reflexivity|].
        rewrite <- (seeded_data_file p) at 1. apply loaded_document. }
  split; [apply H|].
  unfold App.serve_get_menu. rewrite !depends_run. cbn [fst snd].
  unfold App.get_drink_storage. now rewrite H.
Qed.

Lemma valid_fields drink :
  valid drink ->
  DrinkBase.name drink <> EmptyString /\
  size_allowed (DrinkBase.size drink) /\
  (0 <? DrinkBase.price drink)%float = true.
Proof.
  unfold valid. revert drink. intros raw.
  validate_cases raw; try discriminate. intros _. repeat split; [discriminate|tauto].
Qed.

Lemma conforms_new_record n drink :
  0 < n -> valid drink -> record_conforms (new_record n drink).
Proof.
  intros Hn Hv. apply valid_fields in Hv as (Hname & Hsize & Hprice).
  unfold record_conforms, new_record, dict.
  eexists _, n, _, _, _. split; [reflexivity|].
  repeat split; try reflexivity; assumption.
Qed.

Ltac conforms_by_computation :=
  unfold record_conforms, dict;
  eexists _, _, _, _, _; split; [reflexivity|];
  repeat split; try reflexivity; try lia; try discriminate;
  unfold size_allowed; tauto.

Lemma seeded_conforming p : conforming (seeded p).
Proof.
  unfold conforming. rewrite seeded_eq.
  destruct (Py.startswith p "test_"); cbn [drinks next_id].
  - exists [test_espresso; test_latte], 3.
    split; [reflexivity|]. split; [reflexivity|]. split; [lia|].
    repeat (constructor; [conforms_by_computation|]). constructor.
  - exists [espresso; latte; cappuccino; americano], 5.
    split; [reflexivity|]. split; [reflexivity|]. split; [lia|].
    repeat (constructor; [conforms_by_computation|]). constructor.
Qed.

Lemma add_drink_conforming drink o w :
  conforming o -> valid drink ->
  conforming (instance_after (add_drink drink (o, w))).
Proof.
  intros (l & n & Hl & Hn & Hpos & Hall) Hv.
  rewrite (add_drink_grows drink o w l n Hl Hn).
  exists (l ++ [new_record n drink]), (n + 1).
  split; [reflexivity|]. split; [reflexivity|]. split; [lia|].
  apply Forall_app. split; [exact Hall|].
  constructor; [|constructor]. now apply conforms_new_record.
Qed.

(** X18: what validation lets in keeps the store within the [Drink]
    model.  In every store that starts from the seed data and grows by
    [add_drink] calls with validated inputs, each record has a positive
    integer id, a non-empty name, a size among S, M, L and a price above 0,
    and the counter is a positive integer. *)
Theorem X18_validated_additions_conform p o :
  grown (seeded p) o -> conforming o.
Proof.
  induction 1 as [|o drink w _ IH Hv]; [apply seeded_conforming|].
  now apply add_drink_conforming.
Qed.

Lemma X18_witness :
  grown (seeded "drinks.json")
        (instance_after (add_drink mocha (seeded "drinks.json", empty_world))) /\
  conforming (instance_after (add_drink mocha (seeded "drinks.json", empty_world))).
Proof.
  assert (H : grown (seeded "drinks.json")
        (instance_after (add_drink mocha (seeded "drinks.json", empty_world))))
    by (apply grown_add; [apply grown_now|reflexivity]).
  split; [exact H|]. exact (X18_validated_additions_conform "drinks.json" _ H).
Defined.
